(** * A shallow embedding of the Flask file-upload service (src/app.py)

    The development has four layers:
    - [Str], [PosixPath], [Werkzeug], [Clock]: the Python library functions
      that app.py calls on text (str methods, os.path, secure_filename,
      strftime), written out as executable functions;
    - [Os]: a filesystem, the system calls app.py makes on it, and the monad
      of state and exceptions in which the handlers run;
    - [App]: the functions of app.py, line by line;
    - the properties of the service.

    Text.  A Python [str] is modelled as a list of 8-bit characters.  On
    7-bit ASCII text the functions below are the Python ones.  A character
    above 127 stands for a non-ASCII code point that is caseless, is not
    white space and has no compatibility decomposition into ASCII (a CJK
    ideograph, say): [lower] leaves it alone and [secure_filename] drops it. *)

From Stdlib Require Import Ascii String ZArith.
From stdpp Require Import gmap strings list fin_maps.

#[global] Set Warnings "-clear-no-such-hyp".

Abbreviation text := (list ascii).
Coercion list_ascii_of_string : string >-> list.

(** ** Python's str methods *)
Module Str.

Definition code (c : ascii) : nat := nat_of_ascii c.

(** [c.isspace()] on ASCII: tab, LF, VT, FF, CR, FS, GS, RS, US, space. *)
Definition is_space (c : ascii) : bool :=
  ((9 <=? code c) && (code c <=? 13)) || ((28 <=? code c) && (code c <=? 32)).

Definition is_upper (c : ascii) : bool := (65 <=? code c) && (code c <=? 90).
Definition is_lower (c : ascii) : bool := (97 <=? code c) && (code c <=? 122).
Definition is_digit (c : ascii) : bool := (48 <=? code c) && (code c <=? 57).

Definition lower_char (c : ascii) : ascii :=
  if is_upper c then ascii_of_nat (code c + 32) else c.

(** [s.lower()] *)
Definition lower (s : text) : text := map lower_char s.

Definition in_chars (chars : text) (c : ascii) : bool := bool_decide (c ∈ chars).

Fixpoint lstrip (P : ascii → bool) (s : text) : text :=
  match s with
  | [] => []
  | c :: r => if P c then lstrip P r else s
  end.

Definition rstrip (P : ascii → bool) (s : text) : text := rev (lstrip P (rev s)).

(** [s.strip(chars)] and [s.strip()] remove at both ends. *)
Definition strip (P : ascii → bool) (s : text) : text := rstrip P (lstrip P s).
Definition strip_chars (chars : text) : text → text := strip (in_chars chars).
Definition strip_ws : text → text := strip is_space.

(** [s.startswith(p)] *)
Fixpoint startswith (p s : text) : bool :=
  match p, s with
  | [], _ => true
  | _ :: _, [] => false
  | a :: p', b :: s' => bool_decide (a = b) && startswith p' s'
  end.

Definition endswith (p s : text) : bool := startswith (rev p) (rev s).

(** [sub in s] *)
Fixpoint contains (sub s : text) : bool :=
  startswith sub s ||
  match s with
  | [] => false
  | _ :: r => contains sub r
  end.

(** The two pieces around the last occurrence of [sep], when there is one. *)
Fixpoint rpartition (sep : ascii) (s : text) : option (text * text) :=
  match s with
  | [] => None
  | c :: r =>
      match rpartition sep r with
      | Some (a, b) => Some (c :: a, b)
      | None => if bool_decide (c = sep) then Some ([], r) else None
      end
  end.

(** [s.rsplit(sep, 1)]: one or two pieces. *)
Definition rsplit1 (sep : ascii) (s : text) : list text :=
  match rpartition sep s with
  | Some (a, b) => [a; b]
  | None => [s]
  end.

(** [s.rfind(sep)]: the index of the last occurrence, or -1. *)
Definition rfind (sep : ascii) (s : text) : Z :=
  match rpartition sep s with
  | Some (a, _) => Z.of_nat (length a)
  | None => (-1)%Z
  end.

(** The slices [s[:i]], [s[i:]] and [s[i:j]] for indices that are not negative. *)
Definition upto (i : Z) (s : text) : text := take (Z.to_nat i) s.
Definition from (i : Z) (s : text) : text := drop (Z.to_nat i) s.
Definition slice (i j : Z) (s : text) : text := drop (Z.to_nat i) (take (Z.to_nat j) s).

(** [s.split(sep)]: the pieces between the occurrences of [sep]. *)
Fixpoint split (sep : ascii) (s : text) : list text :=
  match s with
  | [] => [[]]
  | c :: r =>
      if bool_decide (c = sep) then [] :: split sep r
      else match split sep r with
           | h :: t => (c :: h) :: t
           | [] => [[c]]
           end
  end.

(** [s.split()]: the maximal runs of characters that are not white space. *)
Fixpoint split_ws (s : text) : list text :=
  match s with
  | [] => []
  | c :: r =>
      if is_space c then split_ws r
      else match r with
           | [] => [[c]]
           | c' :: _ =>
               if is_space c' then [c] :: split_ws r
               else match split_ws r with
                    | h :: t => (c :: h) :: t
                    | [] => [[c]]
                    end
           end
  end.

(** [sep.join(pieces)] *)
Fixpoint join (sep : text) (pieces : list text) : text :=
  match pieces with
  | [] => []
  | [p] => p
  | p :: rest => p ++ sep ++ join sep rest
  end.

(** [s.replace(a, b)] for one-character [a] and [b]. *)
Definition replace (a b : ascii) (s : text) : text :=
  map (λ c, if bool_decide (c = a) then b else c) s.

End Str.

(** ** posixpath *)
Module PosixPath.
Import Str.

(** [os.path.join(a, b)] *)
Definition join (a b : text) : text :=
  if startswith "/" b then b
  else if bool_decide (a = []) || endswith "/" a then a ++ b
  else a ++ "/" ++ b.

(** [os.path.splitext(p)]: genericpath._splitext with sep "/" and extsep ".".
    The loop over [filenameIndex] looks for a character other than "." in
    [p[sepIndex+1:dotIndex]]. *)
Definition splitext (p : text) : text * text :=
  let sepIndex := rfind "/" p in
  let dotIndex := rfind "." p in
  if (sepIndex <? dotIndex)%Z
     && existsb (λ c, negb (bool_decide (c = "."%char))) (slice (sepIndex + 1) dotIndex p)
  then (upto dotIndex p, from dotIndex p)
  else (p, []).

(** [os.path.basename(p)] *)
Definition basename (p : text) : text := from (rfind "/" p + 1) p.

(** [os.path.dirname(p)] *)
Definition dirname (p : text) : text :=
  let head := upto (rfind "/" p + 1) p in
  if negb (bool_decide (head = [])) && negb (forallb (λ c, bool_decide (c = "/"%char)) head)
  then rstrip (in_chars "/") head
  else head.

End PosixPath.

(** ** werkzeug.utils.secure_filename (on a POSIX host: os.sep is "/", there is
    no os.path.altsep, and the Windows device-name branch is dead) *)
Module Werkzeug.
Import Str.

(** The characters that [_filename_ascii_strip_re] keeps: [A-Za-z0-9_.-]. *)
Definition safe_char (c : ascii) : bool :=
  is_upper c || is_lower c || is_digit c || in_chars "_.-" c.

Definition is_ascii (c : ascii) : bool := code c <? 128.

Definition secure_filename (filename : text) : text :=
  (* unicodedata.normalize("NFKD", ...).encode("ascii", "ignore").decode("ascii") *)
  let filename := filter (λ c, is_ascii c = true) filename in
  (* filename.replace(os.sep, " ") *)
  let filename := replace "/" " " filename in
  (* _filename_ascii_strip_re.sub("", "_".join(filename.split())).strip("._") *)
  strip_chars "._" (filter (λ c, safe_char c = true) (Str.join "_" (split_ws filename))).

End Werkzeug.

(** ** datetime *)
Module Clock.

Record datetime := DateTime {
  year : nat; month : nat; day : nat;
  hour : nat; minute : nat; second : nat
}.

Definition digit (n : nat) : ascii := ascii_of_nat (48 + n mod 10).
Definition pad2 (n : nat) : text := [digit (n / 10); digit n].
Definition pad4 (n : nat) : text := [digit (n / 1000); digit (n / 100); digit (n / 10); digit n].

(** [t.strftime('%Y%m%d_%H%M%S')], for the years 1000 to 9999. *)
Definition strftime_stamp (t : datetime) : text :=
  pad4 (year t) ++ pad2 (month t) ++ pad2 (day t) ++ "_"
    ++ pad2 (hour t) ++ pad2 (minute t) ++ pad2 (second t).

End Clock.

(** ** The operating system: a filesystem, clock and system-call trace *)
Module Os.
Import Str Clock.

Abbreviation byte := Byte.byte.

Inductive node :=
| Dir (mtime : datetime)
| File (content : list byte) (mtime : datetime).

(** A location names a node by its path components, innermost first: the
    file /app/files/a.txt is at ["a.txt"; "files"; "app"], the root at []. *)
Abbreviation location := (list text).
Abbreviation tree := (gmap (list text) node).

Inductive syscall :=
| SysStat (p : text)
| SysListdir (p : text)
| SysMakedirs (p : text)
| SysOpenWrite (p : text)
| SysOpenRead (p : text).

(** [clock] is every reading the wall clock will give, [ticks] counts the
    readings taken by datetime.now(), [trace] lists the system calls made on
    the filesystem, latest first. *)
Record world := World {
  files : gmap (list text) node;
  clock : nat → datetime;
  ticks : nat;
  trace : list syscall
}.

Definition wall (w : world) : datetime := clock w (ticks w).

Inductive exn :=
| FileNotFoundError | FileExistsError | NotADirectoryError | IsADirectoryError
| IndexError | KeyError | TypeError | AttributeError
| BadRequest | NotFound.

Inductive outcome (A : Type) :=
| Ret (a : A)
| Raise (e : exn).
Arguments Ret {A} a.
Arguments Raise {A} e.

(** Computations that read and change the world and may raise. *)
Definition M (A : Type) : Type := world → outcome A * world.

Definition ret {A} (a : A) : M A := λ w, (Ret a, w).
Definition raise {A} (e : exn) : M A := λ w, (Raise e, w).
Definition bind {A B} (m : M A) (k : A → M B) : M B :=
  λ w, match m w with
       | (Ret a, w') => k a w'
       | (Raise e, w') => (Raise e, w')
       end.
(** try: [body] except Exception as e: [handler e] *)
Definition try_except {A} (body : M A) (handler : exn → M A) : M A :=
  λ w, match body w with
       | (Ret a, w') => (Ret a, w')
       | (Raise e, w') => handler e w'
       end.

Definition logged (c : syscall) (w : world) : world :=
  World (files w) (clock w) (ticks w) (c :: trace w).
Definition with_files (fs : gmap (list text) node) (w : world) : world :=
  World fs (clock w) (ticks w) (trace w).
Definition ticked (w : world) : world :=
  World (files w) (clock w) (S (ticks w)) (trace w).

Definition log (c : syscall) : M unit := λ w, (Ret tt, logged c w).
Definition get_files : M (gmap (list text) node) := λ w, (Ret (files w), w).
Definition put_files (fs : gmap (list text) node) : M unit := λ w, (Ret tt, with_files fs w).
Definition get_wall : M datetime := λ w, (Ret (wall w), w).

(** datetime.now() *)
Definition datetime_now : M datetime := λ w, (Ret (wall w), ticked w).

(** *** Name resolution *)

Definition is_dir (fs : gmap (list text) node) (l : location) : bool :=
  match fs !! l with Some (Dir _) => true | _ => false end.

Definition is_file (fs : gmap (list text) node) (l : location) : bool :=
  match fs !! l with Some (File _ _) => true | _ => false end.

Definition parent (l : location) : location := tail l.

(** The components "" (from a doubled or trailing slash) and "." stay put. *)
Definition stays (s : text) : bool := bool_decide (s = []) || bool_decide (s = ".").
Definition goes_up (s : text) : bool := bool_decide (s = "..").

(** Resolve [segs] from the location [cur]: each component is looked up in a
    directory, so the walk fails when [cur] is not one.  The node at the
    final location need not exist. *)
Fixpoint walk (fs : gmap (list text) node) (cur : location) (segs : list text)
  : option location :=
  match segs with
  | [] => Some cur
  | s :: rest =>
      if is_dir fs cur then
        if stays s then walk fs cur rest
        else if goes_up s then walk fs (parent cur) rest
        else walk fs (s :: cur) rest
      else None
  end.

(** Every path app.py hands to the system is absolute; resolution starts
    at the root. *)
Definition locate (fs : gmap (list text) node) (p : text) : option location :=
  if bool_decide (p = []) then None else walk fs [] (split "/" p).

Definition stat (fs : gmap (list text) node) (p : text) : option node :=
  locate fs p ≫= λ l, fs !! l.

(** The names of the entries of the directory at [d], in enumeration order. *)
Definition child_name (d : location) (k : location) : option text :=
  match k with
  | n :: d' => if bool_decide (d' = d) then Some n else None
  | [] => None
  end.

Definition children (fs : gmap (list text) node) (d : location) : list text :=
  omap (λ kv, child_name d kv.1) (map_to_list fs).

(** *** Changing the tree *)

(** Creating an entry stamps the directory that receives it. *)
Definition touch (t : datetime) (d : location) (fs : gmap (list text) node)
  : gmap (list text) node :=
  match fs !! d with
  | Some (Dir _) => <[d := Dir t]> fs
  | _ => fs
  end.

Definition mkdir (t : datetime) (l : location) (fs : gmap (list text) node)
  : gmap (list text) node :=
  <[l := Dir t]> (touch t (parent l) fs).

(** What the system reports when [l] had to be a directory and is not. *)
Definition not_a_directory (fs : gmap (list text) node) (l : location) (last : bool) : exn :=
  match fs !! l with
  | None => FileNotFoundError
  | Some _ => if last then FileExistsError else NotADirectoryError
  end.

(** os.makedirs(p, exist_ok=True), component by component: a missing
    directory is created, an existing one is entered, anything else on the
    way raises.  The directories made before the failure stay on disk, so
    the exception comes with the tree as it then is.  Slashes after the last
    name do not count as a further component: mkdir of "f/" for a regular
    file f reports that it exists, mkdir of "f/x" that f is not a directory. *)
Fixpoint makedirs_walk (t : datetime) (fs : gmap (list text) node) (cur : location)
    (segs : list text) : exn * gmap (list text) node + gmap (list text) node :=
  match segs with
  | [] => if is_dir fs cur then inr fs else inl (not_a_directory fs cur true, fs)
  | s :: rest =>
      if is_dir fs cur then
        if stays s then makedirs_walk t fs cur rest
        else if goes_up s then makedirs_walk t fs (parent cur) rest
        else match fs !! (s :: cur) with
             | None => makedirs_walk t (mkdir t (s :: cur) fs) (s :: cur) rest
             | Some _ => makedirs_walk t fs (s :: cur) rest
             end
      else inl (not_a_directory fs cur (forallb (λ x, bool_decide (x = [])) segs), fs)
  end.

Definition makedirs_tree (t : datetime) (fs : gmap (list text) node) (p : text)
  : exn * gmap (list text) node + gmap (list text) node :=
  if bool_decide (p = []) then inl (FileNotFoundError, fs)
  else makedirs_walk t fs [] (split "/" p).

(** open(p, "wb") followed by the write of [content]. *)
Definition write_tree (t : datetime) (fs : gmap (list text) node) (p : text)
    (content : list byte) : exn + gmap (list text) node :=
  match locate fs p with
  | None => inl FileNotFoundError
  | Some l =>
      match fs !! l with
      | Some (Dir _) => inl IsADirectoryError
      | Some (File _ _) => inr (<[l := File content t]> fs)
      | None =>
          if is_dir fs (parent l) && negb (bool_decide (l = []))
          then inr (<[l := File content t]> (touch t (parent l) fs))
          else inl FileNotFoundError
      end
  end.

(** *** The system calls of app.py *)

Notation "'let*' x ':=' c 'in' k" := (bind c (λ x, k))
  (at level 10, x binder, c at level 100, k at level 200).

Definition lift {A} (r : exn + A) : M A :=
  match r with inl e => raise e | inr a => ret a end.

(** os.path.exists(p) *)
Definition path_exists (p : text) : M bool :=
  let* _ := log (SysStat p) in
  let* fs := get_files in
  ret (bool_decide (is_Some (stat fs p))).

(** os.path.isdir(p) *)
Definition path_isdir (p : text) : M bool :=
  let* _ := log (SysStat p) in
  let* fs := get_files in
  ret (match stat fs p with Some (Dir _) => true | _ => false end).

(** os.path.isfile(p) *)
Definition path_isfile (p : text) : M bool :=
  let* _ := log (SysStat p) in
  let* fs := get_files in
  ret (match stat fs p with Some (File _ _) => true | _ => false end).

(** os.path.getsize(p); a directory's st_size depends on the filesystem
    (4096 on ext4) and app.py never asks for it. *)
Definition getsize (p : text) : M nat :=
  let* _ := log (SysStat p) in
  let* fs := get_files in
  match stat fs p with
  | Some (File content _) => ret (length content)
  | Some (Dir _) => ret 4096
  | None => raise FileNotFoundError
  end.

(** os.path.getmtime(p) *)
Definition getmtime (p : text) : M datetime :=
  let* _ := log (SysStat p) in
  let* fs := get_files in
  match stat fs p with
  | Some (File _ t) => ret t
  | Some (Dir t) => ret t
  | None => raise FileNotFoundError
  end.

(** os.listdir(p) *)
Definition listdir (p : text) : M (list text) :=
  let* _ := log (SysListdir p) in
  let* fs := get_files in
  match locate fs p with
  | None => raise FileNotFoundError
  | Some l =>
      match fs !! l with
      | Some (Dir _) => ret (children fs l)
      | Some (File _ _) => raise NotADirectoryError
      | None => raise FileNotFoundError
      end
  end.

(** os.makedirs(p, exist_ok=True) *)
Definition makedirs (p : text) : M unit :=
  let* _ := log (SysMakedirs p) in
  let* fs := get_files in
  let* t := get_wall in
  match makedirs_tree t fs p with
  | inl (e, fs') => let* _ := put_files fs' in raise e
  | inr fs' => put_files fs'
  end.

(** FileStorage.save(p) for an upload of [content] *)
Definition save (content : list byte) (p : text) : M unit :=
  let* _ := log (SysOpenWrite p) in
  let* fs := get_files in
  let* t := get_wall in
  let* fs' := lift (write_tree t fs p content) in
  put_files fs'.

(** open(p, "rb").read(), as flask's send_file does *)
Definition read_file (p : text) : M (list byte) :=
  let* _ := log (SysOpenRead p) in
  let* fs := get_files in
  match stat fs p with
  | Some (File content _) => ret content
  | Some (Dir _) => raise IsADirectoryError
  | None => raise FileNotFoundError
  end.

(** for x in l: ys.append(f(x)) *)
Fixpoint for_each {A B} (f : A → M B) (l : list A) : M (list B) :=
  match l with
  | [] => ret []
  | x :: rest =>
      let* y := f x in
      let* ys := for_each f rest in
      ret (y :: ys)
  end.

End Os.

(** ** app.py *)
Module App.
Import Str Clock Os.

Definition UPLOAD_FOLDER : text := "/app/files".

Definition ALLOWED_EXTENSIONS : list text :=
  [ "txt" : text; "pdf" : text; "png" : text; "jpg" : text; "jpeg" : text; "gif" : text;
    "doc" : text; "docx" : text; "xls" : text; "xlsx" : text; "zip" : text; "rar" : text ].

(** The machine-readable 'code' of an error response; the human-readable
    'error' message beside it is left out. *)
Inductive code :=
| NO_FILE | EMPTY_FILENAME | INVALID_FILE_TYPE | UPLOAD_ERROR
| INVALID_PATH | FILE_NOT_FOUND | ACCESS_ERROR
| MISSING_PATH | EMPTY_PATH | CREATE_FOLDER_ERROR
| PATH_NOT_FOUND | LIST_ERROR.

Inductive kind := directory | file.

Record item := Item {
  item_name : text;
  item_type : kind;
  item_size : nat;
  item_modified_time : datetime
}.

(** What a handler returns: an error body with its HTTP status, or one of
    the success bodies (status 200).  Times are kept as [datetime] values,
    not rendered by isoformat(). *)
Inductive response :=
| Failure (c : code) (status : nat)
| Uploaded (filename path url : text) (size : nat) (upload_time : datetime)
| Served (content : list byte)
| FolderCreated (path full_path : text) (created_time : datetime)
| Listing (path : text) (items : list item) (count : nat).

(** The parts of a POST /upload request that upload_file reads:
    request.files.get('file') as (filename, content), and the form fields. *)
Record upload_request := UploadRequest {
  req_file : option (text * list byte);
  req_path : option text;
  req_filename : option text
}.

(** request.form.get(key, '') *)
Definition form_get (field : option text) : text := default [] field.

(** JSON values, for the body of POST /create-folder. *)
#[local] Unset Elimination Schemes.
Inductive json :=
| JNull
| JBool (b : bool)
| JNum (n : Z)
| JStr (s : text)
| JArr (l : list json)
| JObj (members : list (text * json)).
#[local] Set Elimination Schemes.

(** request.get_json(): the parsed body, or a body that does not parse. *)
Inductive body := Unparsable | Parsed (data : json).

Definition get_json (b : body) : M json :=
  match b with
  | Unparsable => raise BadRequest
  | Parsed data => ret data
  end.

(** bool(data) *)
Definition truthy (data : json) : bool :=
  match data with
  | JNull => false
  | JBool b => b
  | JNum n => negb (n =? 0)%Z
  | JStr s => negb (bool_decide (s = []))
  | JArr l => negb (bool_decide (length l = 0))
  | JObj m => negb (bool_decide (length m = 0))
  end.

Definition is_str (s : text) (j : json) : bool :=
  match j with JStr s' => bool_decide (s' = s) | _ => false end.

(** key in data *)
Definition json_in (key : text) (data : json) : M bool :=
  match data with
  | JObj m => ret (bool_decide (key ∈ m.*1))
  | JArr l => ret (existsb (is_str key) l)
  | JStr s => ret (contains key s)
  | _ => raise TypeError
  end.

(** data[key]; of a repeated member the JSON parser keeps the last. *)
Definition json_getitem (key : text) (data : json) : M json :=
  match data with
  | JObj m =>
      match last (filter (λ kv, kv.1 = key) m) with
      | Some kv => ret kv.2
      | None => raise KeyError
      end
  | _ => raise TypeError
  end.

(** value.strip('/') *)
Definition json_strip_slash (value : json) : M text :=
  match value with
  | JStr s => ret (strip_chars "/" s)
  | _ => raise AttributeError
  end.

(** seq[1] *)
Definition index1 (pieces : list text) : M text :=
  match pieces !! 1 with
  | Some x => ret x
  | None => raise IndexError
  end.

(** def allowed_file(filename) *)
Definition allowed_file (filename : text) : bool :=
  contains "." filename &&
  match rsplit1 "." filename !! 1 with
  | Some ext => bool_decide (lower ext ∈ ALLOWED_EXTENSIONS)
  | None => false
  end.

(** def create_directory(path) *)
Definition create_directory (path : text) : M text :=
  let full_path := PosixPath.join UPLOAD_FOLDER (strip_chars "/" path) in
  let* _ := makedirs full_path in
  ret full_path.

(** The module body: os.makedirs(UPLOAD_FOLDER, exist_ok=True) *)
Definition startup : M unit := makedirs UPLOAD_FOLDER.

(** def upload_file() *)
Definition upload_file (request : upload_request) : M response :=
  try_except
    (match req_file request with
     | None => ret (Failure NO_FILE 400)
     | Some (file_filename, content) =>
         if bool_decide (file_filename = []) then ret (Failure EMPTY_FILENAME 400)
         else if negb (allowed_file file_filename) then ret (Failure INVALID_FILE_TYPE 400)
         else
           let upload_path := strip_chars "/" (form_get (req_path request)) in
           let custom_filename := strip_ws (form_get (req_filename request)) in
           let* filename :=
             if negb (bool_decide (custom_filename = [])) then
               let* original_ext := index1 (rsplit1 "." file_filename) in
               ret (Werkzeug.secure_filename custom_filename ++ "." ++ lower original_ext)
             else ret (Werkzeug.secure_filename file_filename) in
           let* save_directory :=
             if negb (bool_decide (upload_path = [])) then create_directory upload_path
             else ret UPLOAD_FOLDER in
           let file_path := PosixPath.join save_directory filename in
           let* taken := path_exists file_path in
           let* renamed :=
             if taken then
               let '(name, ext) := PosixPath.splitext filename in
               let* now := datetime_now in
               let timestamp := strftime_stamp now in
               let filename := name ++ "_" ++ timestamp ++ ext in
               ret (filename, PosixPath.join save_directory filename)
             else ret (filename, file_path) in
           let '(filename, file_path) := renamed in
           let* _ := save content file_path in
           let '(file_url, relative_path) :=
             if negb (bool_decide (upload_path = [])) then
               ("http://localhost:5000/files/" ++ upload_path ++ "/" ++ filename,
                upload_path ++ "/" ++ filename)
             else ("http://localhost:5000/files/" ++ filename, filename) in
           let* size := getsize file_path in
           let* upload_time := datetime_now in
           ret (Uploaded filename relative_path file_url size upload_time)
     end)
    (λ e, ret (Failure UPLOAD_ERROR 500)).

(** werkzeug.security.safe_join(directory, filename) for a [filename]
    without "/", which posixpath.normpath leaves as it is. *)
Definition safe_join (directory filename : text) : option text :=
  if startswith "/" filename || bool_decide (filename = "..") || startswith "../" filename
  then None
  else Some (PosixPath.join directory filename).

(** flask.send_from_directory(directory, path) *)
Definition send_from_directory (directory path : text) : M response :=
  match safe_join directory path with
  | None => raise NotFound
  | Some path_str =>
      let* regular := path_isfile path_str in
      if negb regular then raise NotFound
      else
        let* content := read_file path_str in
        ret (Served content)
  end.

(** def download_file(filename) *)
Definition download_file (filename : text) : M response :=
  try_except
    (if contains ".." filename || startswith "/" filename then ret (Failure INVALID_PATH 400)
     else
       let file_path := PosixPath.join UPLOAD_FOLDER filename in
       let* found := path_exists file_path in
       if negb found then ret (Failure FILE_NOT_FOUND 404)
       else
         let directory := PosixPath.dirname file_path in
         let basename := PosixPath.basename file_path in
         send_from_directory directory basename)
    (λ e, ret (Failure ACCESS_ERROR 500)).

(** def create_folder() *)
Definition create_folder (request_body : body) : M response :=
  try_except
    (let* data := get_json request_body in
     let* missing :=
       if negb (truthy data) then ret true
       else let* present := json_in "path" data in ret (negb present) in
     if (missing : bool) then ret (Failure MISSING_PATH 400)
     else
       let* value := json_getitem "path" data in
       let* folder_path := json_strip_slash value in
       if bool_decide (folder_path = []) then ret (Failure EMPTY_PATH 400)
       else
         let* full_path := create_directory folder_path in
         let* created_time := datetime_now in
         ret (FolderCreated folder_path full_path created_time))
    (λ e, ret (Failure CREATE_FOLDER_ERROR 500)).

(** def list_files(folder_path='') *)
Definition list_files (folder_path : text) : M response :=
  try_except
    (let target_path := PosixPath.join UPLOAD_FOLDER (strip_chars "/" folder_path) in
     let* found := path_exists target_path in
     if negb found then ret (Failure PATH_NOT_FOUND 404)
     else
       let* names := listdir target_path in
       let* items :=
         for_each
           (λ item,
              let item_path := PosixPath.join target_path item in
              let* is_dir := path_isdir item_path in
              let* size := if (is_dir : bool) then ret 0 else getsize item_path in
              let* mtime := getmtime item_path in
              ret (Item item (if is_dir then directory else file) size mtime))
           names in
       ret (Listing folder_path items (length items)))
    (λ e, ret (Failure LIST_ERROR 500)).

(** The body of the answer of GET /health. *)
Record health := Health {
  health_status : text;
  health_timestamp : datetime;
  health_service : text
}.

(** def health_check() *)
Definition health_check : M health :=
  let* now := datetime_now in
  ret (Health "healthy" now "file-upload-server").

End App.

(** ** Worlds to run the service in *)
Module Scenario.
Import Clock Os App.

Definition midnight : datetime := DateTime 2025 1 1 0 0 0.

(** A clock that advances one second at each reading. *)
Definition ticking (n : nat) : datetime := DateTime 2025 1 1 0 0 n.
(** A clock that stands still. *)
Definition frozen (n : nat) : datetime := midnight.

(** A disk holding only the root directory. *)
Definition bare (c : nat → datetime) : world :=
  World {[ [] := Dir midnight ]} c 0 [].

(** The world once app.py has been loaded. *)
Definition booted (c : nat → datetime) : world := (startup (bare c)).2.

Definition upload_plain (name : text) (content : list byte) : upload_request :=
  UploadRequest (Some (name, content)) None None.

(** A location from its components, innermost first. *)
Definition spot (names : list string) : location := list_ascii_of_string <$> names.

(** The body of a POST /create-folder for [path]. *)
Definition make_folder (path : text) : body := Parsed (JObj [("path" : text, JStr path)]).

(** Run [m] for its response, then [k] in the world it leaves. *)
Definition after {A B} (m : M A) (k : world → B) (w : world) : B := k (m w).2.

(** An upload of [name] with the form fields 'path' and 'filename'. *)
Definition upload_to (name path custom : text) (content : list byte) : upload_request :=
  UploadRequest (Some (name, content)) (Some path) (Some custom).

End Scenario.
(** ** The words of the specification *)
Module Vocabulary.
Import Str Clock Os App.

(** A filename with a "."-delimited extension whose lowercase form is in the
    allowed set. *)
Definition extension_allowed (filename : text) : Prop :=
  ∃ stem ext : text,
    filename = stem ++ "." ++ ext ∧ ("."%char ∉ ext) ∧ (lower ext ∈ ALLOWED_EXTENSIONS).

(** A name that a directory entry can have. *)
Definition is_name (n : text) : bool :=
  negb (stays n) && negb (goes_up n) && negb (bool_decide ("/"%char ∈ n)).

(** Every component of every location is such a name. *)
Definition well_named (fs : gmap (list text) node) : Prop :=
  map_Forall (λ (k : list text) (_ : node), Forall (λ n, is_name n = true) k) fs.

#[global] Instance well_named_dec fs : Decision (well_named fs).
Proof. unfold well_named. apply _. Defined.

(** What a listing says of the node [nd] named [n]. *)
Definition entry_of (n : text) (nd : node) : item :=
  match nd with
  | Dir t => Item n directory 0 t
  | File content t => Item n file (length content) t
  end.

(** One component of a path, read without looking at the disk. *)
Definition step (cur : location) (s : text) : location :=
  if stays s then cur else if goes_up s then parent cur else s :: cur.

(** Where [segs] lead from [cur], and the locations passed on the way. *)
Definition lexical (cur : location) (segs : list text) : location := foldl step cur segs.

Fixpoint trail (cur : location) (segs : list text) : list location :=
  match segs with
  | [] => [cur]
  | s :: rest => cur :: trail (step cur s) rest
  end.

(** The root is a directory and every node lies in a directory. *)
Definition rooted (fs : gmap (list text) node) : Prop :=
  is_dir fs [] = true ∧ map_Forall (λ (k : list text) (_ : node), is_dir fs (parent k) = true) fs.

#[global] Instance rooted_dec fs : Decision (rooted fs).
Proof. unfold rooted. apply _. Defined.

(** [fs'] has all of [fs]: files as they are, directories still directories. *)
Definition extends (fs fs' : gmap (list text) node) : Prop :=
  ∀ k, match fs !! k with
       | Some (File content t) => fs' !! k = Some (File content t)
       | Some (Dir _) => is_dir fs' k = true
       | None => True
       end.

(** Lines 93 to 99 of app.py: the filename an upload asks for, from the
    original filename and the 'filename' form field. *)
Definition resolve_filename (original field : text) : text :=
  let custom_filename := strip_ws field in
  if bool_decide (custom_filename = []) then Werkzeug.secure_filename original
  else Werkzeug.secure_filename custom_filename
         ++ "." ++ lower (default [] (rsplit1 "." original !! 1)).

Definition is_alpha (c : ascii) : bool := is_upper c || is_lower c.

(** Lines 110 to 112: the name given instead of a taken one. *)
Definition stamped (filename : text) (now : datetime) : text :=
  let '(name, ext) := PosixPath.splitext filename in
  name ++ "_" ++ strftime_stamp now ++ ext.

(** Lines 102 to 105: the directory an upload is saved in. *)
Definition resolve_directory (upload_path : text) : M text :=
  if negb (bool_decide (upload_path = [])) then create_directory upload_path
  else ret UPLOAD_FOLDER.

(** Lines 119 to 124: the 'path' and 'url' of the answer. *)
Definition relative_path (upload_path filename : text) : text :=
  if negb (bool_decide (upload_path = [])) then upload_path ++ "/" ++ filename
  else filename.

Definition file_url (upload_path filename : text) : text :=
  if negb (bool_decide (upload_path = []))
  then "http://localhost:5000/files/" ++ upload_path ++ "/" ++ filename
  else "http://localhost:5000/files/" ++ filename.

(** Where the storage root /app/files is, and what lies in it. *)
Definition storage_root : location := ["files" : text; "app" : text].

Definition inside_storage (l : location) : Prop := storage_root `suffix_of` l.

(** [w'] is [w] after some system calls that only looked: the files, the
    clock and the count of its readings are the same, the trace has grown. *)
Definition observed (w w' : world) : Prop :=
  files w' = files w ∧ clock w' = clock w ∧ ticks w' = ticks w ∧
  ∃ calls, trace w' = calls ++ trace w.

(** A computation that only looks, whatever it returns or raises. *)
Definition looks_only {A} (m : M A) : Prop := ∀ w, observed w (m w).2.

(** The items of the directory at [d], as a listing gives them. *)
Definition entries (fs : gmap (list text) node) (d : location) : list item :=
  omap (λ n, entry_of n <$> fs !! (n :: d)) (children fs d).

(** Two answers of the list endpoint that differ at most in the path they echo. *)
Definition same_listing (r1 r2 : outcome response) : Prop :=
  match r1, r2 with
  | Ret (Listing _ items1 count1), Ret (Listing _ items2 count2) =>
      items1 = items2 ∧ count1 = count2
  | Ret (Failure c1 status1), Ret (Failure c2 status2) => c1 = c2 ∧ status1 = status2
  | _, _ => False
  end.

End Vocabulary.

(** * Properties *)

(** ** The library functions on examples *)
Example ex_strip : Str.strip_chars "/" "//a/b/" = "a/b".
Proof. reflexivity. Qed.
Example ex_split_ws : Str.split_ws "  my  file name " = ["my" : text; "file" : text; "name" : text].
Proof. reflexivity. Qed.
Example ex_secure1 : Werkzeug.secure_filename "My cool movie.mov" = "My_cool_movie.mov".
Proof. reflexivity. Qed.
Example ex_secure2 : Werkzeug.secure_filename "../../../etc/passwd" = "etc_passwd".
Proof. reflexivity. Qed.
Example ex_secure3 : Werkzeug.secure_filename "a..txt" = "a..txt".
Proof. reflexivity. Qed.
Example ex_splitext1 : PosixPath.splitext "a..txt" = ("a." : text, ".txt" : text).
Proof. reflexivity. Qed.
Example ex_splitext2 : PosixPath.splitext ".bashrc" = (".bashrc" : text, "" : text).
Proof. reflexivity. Qed.
Example ex_splitext3 : PosixPath.splitext "x/.a.b/c" = ("x/.a.b/c" : text, "" : text).
Proof. reflexivity. Qed.
Example ex_dirname : PosixPath.dirname "/app/files/a//b.txt" = "/app/files/a".
Proof. reflexivity. Qed.
Example ex_dirname2 : PosixPath.dirname "/x" = "/".
Proof. reflexivity. Qed.
Example ex_basename : PosixPath.basename "/app/files/a//b.txt" = "b.txt".
Proof. reflexivity. Qed.
Example ex_join : PosixPath.join "/app/files" "" = "/app/files/".
Proof. reflexivity. Qed.
Example ex_stamp : Clock.strftime_stamp (Clock.DateTime 2025 1 2 3 4 5) = "20250102_030405".
Proof. reflexivity. Qed.
Example ex_rsplit : Str.rsplit1 "." "a.b.PDF" = ["a.b" : text; "PDF" : text].
Proof. reflexivity. Qed.

(** Text literals are strings read as character lists; [lits] unfolds them. *)
Ltac lits := cbn [list_ascii_of_string] in *.

(** ** Text *)
Section text_facts.
Import Str App Vocabulary.

Lemma startswith_spec (p s : text) :
  startswith p s = true ↔ ∃ rest, s = p ++ rest.
Proof.
  revert s. induction p as [|a p IH]; intros s; simpl.
  - split; [intros _; by exists s | done].
  - destruct s as [|b s]; simpl.
    + split; [done | intros [rest ?]; done].
    + rewrite andb_true_iff, bool_decide_eq_true, IH. split.
      * intros [-> [rest ->]]. by exists rest.
      * intros [rest [= -> ->]]. eauto.
Qed.

Lemma contains_spec (sub s : text) :
  contains sub s = true ↔ ∃ before rest, s = before ++ sub ++ rest.
Proof.
  induction s as [|c s IH]; simpl.
  - rewrite orb_false_r, startswith_spec. split.
    + intros [rest ->]. by exists [], rest.
    + intros (before & rest & H). symmetry in H.
      apply app_eq_nil in H as [-> H]. exists rest. by rewrite H.
  - rewrite orb_true_iff, IH, startswith_spec. split.
    + intros [[rest ->] | (before & rest & ->)].
      * by exists [], rest.
      * by exists (c :: before), rest.
    + intros (before & rest & H). destruct before as [|b before]; simpl in H.
      * left. by exists rest.
      * injection H as -> ->. right. by exists before, rest.
Qed.

Lemma contains_char (c : ascii) (s : text) : contains [c] s = true ↔ c ∈ s.
Proof.
  rewrite contains_spec. split.
  - intros (before & rest & ->). set_solver.
  - intros (before & rest & ->)%list_elem_of_split. by exists before, rest.
Qed.

Lemma rpartition_None sep s : rpartition sep s = None ↔ sep ∉ s.
Proof.
  induction s as [|c s IH]; simpl.
  - split; [intros _; apply not_elem_of_nil | done].
  - destruct (rpartition sep s) as [[a b]|].
    + split; [done|]. intros Hnot. assert (sep ∉ s) as H by set_solver.
      by apply IH in H.
    + case_bool_decide as Hc; subst.
      * split; [done | set_solver].
      * split; [|done]. intros _. assert (sep ∉ s) by by apply IH. set_solver.
Qed.

Lemma rpartition_Some sep s a b :
  rpartition sep s = Some (a, b) ↔ s = a ++ sep :: b ∧ sep ∉ b.
Proof.
  revert a. induction s as [|c s IH]; intros a; simpl.
  - split; [done|]. intros [H _]. by destruct a.
  - destruct (rpartition sep s) as [[a' b']|] eqn:Hr.
    + split.
      * intros [= <- <-]. destruct (IH a') as [[-> ?] _]; done.
      * intros [H Hb]. destruct a as [|x a]; simpl in H.
        -- injection H as -> ->. apply rpartition_None in Hb. congruence.
        -- injection H as -> ->.
           assert (Some (a', b') = Some (a, b)) as [= -> ->]; [|done].
           by apply IH.
    + apply rpartition_None in Hr. case_bool_decide as Hc; subst.
      * split.
        -- by intros [= <- <-].
        -- intros [H Hb]. destruct a as [|x a]; simpl in H.
           ++ by injection H as ->.
           ++ injection H as -> ->. set_solver.
      * split; [done|]. intros [H Hb]. destruct a as [|x a]; simpl in H.
        -- by injection H as ->.
        -- injection H as -> ->. set_solver.
Qed.

Lemma allowed_file_spec filename :
  allowed_file filename = true ↔ extension_allowed filename.
Proof.
  unfold allowed_file, extension_allowed, rsplit1. cbn [list_ascii_of_string].
  rewrite andb_true_iff, contains_char. split.
  - intros [Hdot H].
    destruct (rpartition "." filename) as [[a b]|] eqn:Hr.
    + apply rpartition_Some in Hr as [-> Hb]. simpl in H.
      apply bool_decide_eq_true in H. by exists a, b.
    + apply rpartition_None in Hr. done.
  - intros (stem & ext & -> & Hext & Hin).
    split; [set_solver|].
    assert (rpartition "." (stem ++ ["."%char] ++ ext) = Some (stem, ext)) as ->
      by by apply rpartition_Some.
    simpl. by apply bool_decide_eq_true.
Qed.

End text_facts.

Import Str Clock Os App Scenario Vocabulary.

(** ** Running computations *)
Section running.
Context {A B : Type}.
Implicit Types (k : A → M B) (w : world).

Lemma bind_ret (m : M A) k w a w' : m w = (Ret a, w') → bind m k w = k a w'.
Proof. unfold bind. by intros ->. Qed.

Lemma bind_raise (m : M A) k w e w' : m w = (Raise e, w') → bind m k w = (Raise e, w').
Proof. unfold bind. by intros ->. Qed.

Lemma bind_pure (a : A) k w : bind (ret a) k w = k a w.
Proof. done. Qed.
End running.

Section system_calls.
Context {B : Type}.
Implicit Types (w : world) (p : text).

Lemma run_path_exists p (k : bool → M B) w :
  bind (path_exists p) k w
  = k (bool_decide (is_Some (stat (files w) p))) (logged (SysStat p) w).
Proof. done. Qed.

Lemma run_path_isdir p (k : bool → M B) w :
  bind (path_isdir p) k w
  = k (match stat (files w) p with Some (Dir _) => true | _ => false end)
      (logged (SysStat p) w).
Proof. done. Qed.

Lemma run_path_isfile p (k : bool → M B) w :
  bind (path_isfile p) k w
  = k (match stat (files w) p with Some (File _ _) => true | _ => false end)
      (logged (SysStat p) w).
Proof. done. Qed.

Lemma run_datetime_now (k : datetime → M B) w :
  bind datetime_now k w = k (wall w) (ticked w).
Proof. done. Qed.

Lemma run_getsize p (k : nat → M B) w :
  bind (getsize p) k w
  = match stat (files w) p with
    | Some (File content _) => k (length content) (logged (SysStat p) w)
    | Some (Dir _) => k 4096 (logged (SysStat p) w)
    | None => (Raise FileNotFoundError, logged (SysStat p) w)
    end.
Proof.
  unfold bind, getsize, bind, log, get_files. simpl.
  by destruct (stat (files w) p) as [[]|].
Qed.

Lemma run_getmtime p (k : datetime → M B) w :
  bind (getmtime p) k w
  = match stat (files w) p with
    | Some (File _ t) | Some (Dir t) => k t (logged (SysStat p) w)
    | None => (Raise FileNotFoundError, logged (SysStat p) w)
    end.
Proof.
  unfold bind, getmtime, bind, log, get_files. simpl.
  by destruct (stat (files w) p) as [[]|].
Qed.

Lemma run_read_file p (k : list byte → M B) w :
  bind (read_file p) k w
  = match stat (files w) p with
    | Some (File content _) => k content (logged (SysOpenRead p) w)
    | Some (Dir _) => (Raise IsADirectoryError, logged (SysOpenRead p) w)
    | None => (Raise FileNotFoundError, logged (SysOpenRead p) w)
    end.
Proof.
  unfold bind, read_file, bind, log, get_files. simpl.
  by destruct (stat (files w) p) as [[]|].
Qed.

Lemma run_makedirs p (k : unit → M B) w :
  bind (makedirs p) k w
  = match makedirs_tree (wall w) (files w) p with
    | inr fs' => k tt (with_files fs' (logged (SysMakedirs p) w))
    | inl (e, fs') => (Raise e, with_files fs' (logged (SysMakedirs p) w))
    end.
Proof.
  unfold bind, makedirs, bind, log, get_files, get_wall. simpl.
  by destruct (makedirs_tree _ _ _) as [[]|].
Qed.

Lemma run_save content p (k : unit → M B) w :
  bind (save content p) k w
  = match write_tree (wall w) (files w) p content with
    | inr fs' => k tt (with_files fs' (logged (SysOpenWrite p) w))
    | inl e => (Raise e, logged (SysOpenWrite p) w)
    end.
Proof.
  unfold bind, save, bind, log, get_files, get_wall, lift. simpl.
  by destruct (write_tree _ _ _ _).
Qed.

Lemma run_listdir p (k : list text → M B) w :
  bind (listdir p) k w
  = match locate (files w) p with
    | Some l =>
        match files w !! l with
        | Some (Dir _) => k (children (files w) l) (logged (SysListdir p) w)
        | Some (File _ _) => (Raise NotADirectoryError, logged (SysListdir p) w)
        | None => (Raise FileNotFoundError, logged (SysListdir p) w)
        end
    | None => (Raise FileNotFoundError, logged (SysListdir p) w)
    end.
Proof.
  unfold bind, listdir, bind, log, get_files. simpl.
  destruct (locate _ _) as [l|]; [|done]. by destruct (files w !! l) as [[]|].
Qed.

End system_calls.

(** ** Retrieval *)

(** C2.  A retrieval path that contains ".." or begins with "/" is answered
    with INVALID_PATH and status 400, and the world is left exactly as it was:
    in particular the trace of system calls has not grown, so the filesystem
    was not consulted. *)
Theorem download_rejects_traversal (filename : text) (w : world) :
  (∃ before rest, filename = before ++ ".." ++ rest) ∨ (∃ rest, filename = "/" ++ rest) →
  download_file filename w = (Ret (Failure INVALID_PATH 400), w).
Proof.
  intros H.
  assert (contains ".." filename || startswith "/" filename = true) as Hguard.
  { apply orb_true_iff. destruct H as [H | H].
    - left. by apply contains_spec.
    - right. by apply startswith_spec. }
  unfold download_file, try_except. by rewrite Hguard.
Qed.

Lemma download_rejects_traversal_witness :
  download_file "a/../../etc/passwd" (booted ticking)
  = (Ret (Failure INVALID_PATH 400), booted ticking).
Proof.
  apply download_rejects_traversal. left.
  exists ("a/" : text), ("/../etc/passwd" : text). reflexivity.
Defined.

(** ** Listing *)

(** C9.  When the listed path names a regular file, the existence check
    passes, os.listdir raises, and the answer is LIST_ERROR with status 500
    (not PATH_NOT_FOUND); the files are as they were. *)
Theorem list_regular_file (folder_path : text) (w : world) content mtime :
  stat (files w) (PosixPath.join UPLOAD_FOLDER (strip_chars "/" folder_path))
    = Some (File content mtime) →
  (list_files folder_path w).1 = Ret (Failure LIST_ERROR 500) ∧
  files (list_files folder_path w).2 = files w.
Proof.
  intros Hstat. unfold list_files, try_except.
  rewrite run_path_exists, Hstat, bool_decide_true by eauto. cbn [negb].
  rewrite run_listdir. cbn [files logged].
  unfold stat in Hstat.
  destruct (locate (files w) _) as [l|] eqn:Hl; simpl in Hstat; [|done].
  rewrite Hstat. done.
Qed.

Lemma list_regular_file_witness :
  let w := (upload_file (upload_plain "x.pdf" [Byte.x41]) (booted ticking)).2 in
  (list_files "x.pdf" w).1 = Ret (Failure LIST_ERROR 500) ∧
  files (list_files "x.pdf" w).2 = files w.
Proof.
  intros w. apply (list_regular_file "x.pdf" w [Byte.x41] (ticking 0)).
  vm_compute. reflexivity.
Defined.

Section inversion.
Context {A B : Type}.

Lemma bind_inv (m : M A) (k : A → M B) w b w' :
  bind m k w = (Ret b, w') → ∃ a w1, m w = (Ret a, w1) ∧ k a w1 = (Ret b, w').
Proof.
  unfold bind. destruct (m w) as [[a|e] w1]; [eauto | done].
Qed.

Lemma ret_inv (a b : A) w w' : ret a w = (Ret b, w') → a = b ∧ w = w'.
Proof. by intros [= -> ->]. Qed.

End inversion.

(** ** Upload: which answers there are *)

(** The answers of upload_file, by the checks in their order. *)
Lemma upload_answers (request : upload_request) (w : world) :
  match req_file request with
  | None => upload_file request w = (Ret (Failure NO_FILE 400), w)
  | Some (filename, content) =>
      if bool_decide (filename = []) then
        upload_file request w = (Ret (Failure EMPTY_FILENAME 400), w)
      else if allowed_file filename then
        (upload_file request w).1 = Ret (Failure UPLOAD_ERROR 500) ∨
        ∃ stored path url size t,
          (upload_file request w).1 = Ret (Uploaded stored path url size t)
      else upload_file request w = (Ret (Failure INVALID_FILE_TYPE 400), w)
  end.
Proof.
  unfold upload_file, try_except.
  destruct (req_file request) as [[filename content]|]; [|done].
  case_bool_decide; [done|].
  destruct (allowed_file filename); [|done]. cbn [negb].
  match goal with |- context [match ?body w with _ => _ end] => destruct (body w) as [[r|e] w'] eqn:Hrun end;
    [|by left].
  right.
  apply bind_inv in Hrun as (stored0 & w1 & _ & Hrun).
  apply bind_inv in Hrun as (dir & w2 & _ & Hrun).
  apply bind_inv in Hrun as (taken & w3 & _ & Hrun).
  apply bind_inv in Hrun as ([stored file_path] & w4 & _ & Hrun).
  apply bind_inv in Hrun as ([] & w5 & _ & Hrun).
  destruct (if negb (bool_decide (strip_chars "/" (form_get (req_path request)) = [])) then _ else _)
    as [url rel] in Hrun.
  apply bind_inv in Hrun as (size & w6 & _ & Hrun).
  apply bind_inv in Hrun as (t & w7 & _ & Hrun).
  apply ret_inv in Hrun as [<- _]. simpl. eauto 6.
Qed.

(** ** Upload: the extension policy *)

(** C4, as amended.  For an upload whose original filename is not empty:
    when the filename has no "."-delimited extension, or its extension
    lowercased is not in the allowed set, the answer is INVALID_FILE_TYPE
    with status 400 and the world is untouched (no file is written, no system
    call is made); when the extension is in the set, allowed_file passes and
    the answer is not INVALID_FILE_TYPE. *)
Theorem extension_policy (request : upload_request) (w : world) filename content :
  req_file request = Some (filename, content) →
  filename ≠ [] →
  (¬ extension_allowed filename →
     upload_file request w = (Ret (Failure INVALID_FILE_TYPE 400), w)) ∧
  (extension_allowed filename →
     allowed_file filename = true ∧
     (upload_file request w).1 ≠ Ret (Failure INVALID_FILE_TYPE 400)).
Proof.
  intros Hfile Hne. pose proof (upload_answers request w) as H.
  rewrite Hfile, bool_decide_false in H by done.
  split.
  - intros Hext. destruct (allowed_file filename) eqn:Hallowed; [|done].
    by apply allowed_file_spec in Hallowed.
  - intros Hext. apply allowed_file_spec in Hext. rewrite Hext in H.
    split; [done|]. destruct H as [-> | (? & ? & ? & ? & ? & ->)]; done.
Qed.

Lemma extension_policy_witness :
  upload_file (upload_plain "notes.exe" [Byte.x41]) (booted ticking)
    = (Ret (Failure INVALID_FILE_TYPE 400), booted ticking) ∧
  upload_file (upload_plain "README" [Byte.x41]) (booted ticking)
    = (Ret (Failure INVALID_FILE_TYPE 400), booted ticking) ∧
  allowed_file "photo.JPeG" = true.
Proof.
  split; [|split].
  - refine (proj1 (extension_policy _ _ "notes.exe" [Byte.x41] _ _) _); [done | by lits |].
    rewrite <- allowed_file_spec. by vm_compute.
  - refine (proj1 (extension_policy _ _ "README" [Byte.x41] _ _) _); [done | by lits |].
    rewrite <- allowed_file_spec. by vm_compute.
  - refine (proj1 (proj2 (extension_policy (upload_plain "photo.JPeG" []) (booted ticking)
                           "photo.JPeG" [] _ _) _)); [done | by lits |].
    rewrite <- allowed_file_spec. reflexivity.
Defined.

(** C4 as stated fails at the empty filename: it has no extension, and the
    answer is EMPTY_FILENAME, not INVALID_FILE_TYPE. *)
Lemma empty_filename_is_not_a_type_error :
  ¬ extension_allowed "" ∧
  (upload_file (upload_plain "" [Byte.x41]) (booted ticking)).1
    = Ret (Failure EMPTY_FILENAME 400) ∧
  (upload_file (upload_plain "" [Byte.x41]) (booted ticking)).1
    ≠ Ret (Failure INVALID_FILE_TYPE 400).
Proof.
  split; [|split; [reflexivity | discriminate]].
  intros (stem & ext & H & _). by destruct stem.
Qed.

(** ** Upload: the empty-filename check *)

(** C5, as amended.  EMPTY_FILENAME (status 400, world untouched) is the
    answer exactly when the original filename of the uploaded file is the
    empty string; the check comes before sanitization, and the sanitized
    name is not checked. *)
Theorem empty_filename_check (request : upload_request) (w : world) :
  (∀ content, req_file request = Some ([], content) →
     upload_file request w = (Ret (Failure EMPTY_FILENAME 400), w)) ∧
  ((upload_file request w).1 = Ret (Failure EMPTY_FILENAME 400) →
     ∃ content, req_file request = Some ([], content)).
Proof.
  pose proof (upload_answers request w) as H. split.
  - intros content Hfile. by rewrite Hfile in H.
  - intros Hcode. destruct (req_file request) as [[filename content]|].
    + case_bool_decide as Hname; [subst; eauto|].
      destruct (allowed_file filename).
      * destruct H as [H | (? & ? & ? & ? & ? & H)]; congruence.
      * rewrite H in Hcode. done.
    + rewrite H in Hcode. done.
Qed.

Lemma empty_filename_check_witness :
  upload_file (upload_plain "" [Byte.x41]) (booted ticking)
    = (Ret (Failure EMPTY_FILENAME 400), booted ticking) ∧
  ∃ content, req_file (upload_plain "" [Byte.x41]) = Some ([], content).
Proof.
  split.
  - by apply (proj1 (empty_filename_check (upload_plain "" [Byte.x41]) (booted ticking))
                [Byte.x41]).
  - by apply (proj2 (empty_filename_check (upload_plain "" [Byte.x41]) (booted ticking))).
Defined.

(** C5 as stated fails for a custom name made of separators: it sanitizes to
    the empty name, and the file is stored under the extension alone. *)
Lemma separators_only_name_is_stored :
  let request := UploadRequest (Some ("x.pdf" : text, [Byte.x41])) None (Some ("///" : text)) in
  Werkzeug.secure_filename (strip_ws "///") = [] ∧
  (upload_file request (booted ticking)).1
    = Ret (Uploaded ".pdf" ".pdf" "http://localhost:5000/files/.pdf" 1 (ticking 0)) ∧
  stat (files (upload_file request (booted ticking)).2) "/app/files/.pdf"
    = Some (File [Byte.x41] (ticking 0)).
Proof. by vm_compute. Qed.

(** ** Stripping and splitting *)
Section strip_split.
Implicit Types (P : ascii → bool) (s : text).

Lemma head_rev s : head (rev s) = last s.
Proof.
  induction s as [|c s IH] using rev_ind; [done|].
  by rewrite rev_unit, last_snoc.
Qed.

Lemma last_rev s : last (rev s) = head s.
Proof. by rewrite <- head_rev, rev_involutive. Qed.

Lemma lstrip_suffix P s : ∃ gone, s = gone ++ lstrip P s ∧ Forall (λ c, P c = true) gone.
Proof.
  induction s as [|c s (gone & IH & Hgone)]; simpl.
  - by exists [].
  - destruct (P c) eqn:Hc.
    + exists (c :: gone). split; [by rewrite IH at 1 | by constructor].
    + by exists [].
Qed.

Lemma lstrip_head P s : head (lstrip P s) = None ∨ ∃ c, head (lstrip P s) = Some c ∧ P c = false.
Proof.
  induction s as [|c s IH]; simpl; [by left|].
  destruct (P c) eqn:Hc; [done|]. right. by exists c.
Qed.

Lemma lstrip_id P s : (∀ c, head s = Some c → P c = false) → lstrip P s = s.
Proof. destruct s as [|c s]; simpl; [done|]. intros H. by rewrite H. Qed.

Lemma lstrip_app_keep P s c rest :
  P c = false → ∃ kept, lstrip P (s ++ c :: rest) = kept ++ c :: rest.
Proof.
  intros Hc. induction s as [|x s [kept IH]]; simpl.
  - rewrite Hc. by exists [].
  - destruct (P x); [by exists kept | by exists (x :: s)].
Qed.

Lemma rstrip_last P s : last (rstrip P s) = None ∨ ∃ c, last (rstrip P s) = Some c ∧ P c = false.
Proof.
  unfold rstrip. rewrite last_rev. apply lstrip_head.
Qed.

Lemma rstrip_id P s : (∀ c, last s = Some c → P c = false) → rstrip P s = s.
Proof.
  intros H. unfold rstrip. rewrite lstrip_id, rev_involutive; [done|].
  intros c Hc. apply H. by rewrite <- head_rev.
Qed.

Lemma rstrip_prefix P s : ∃ gone, s = rstrip P s ++ gone ∧ Forall (λ c, P c = true) gone.
Proof.
  destruct (lstrip_suffix P (rev s)) as (gone & H & Hgone).
  exists (rev gone). split.
  - unfold rstrip. rewrite <- rev_app_distr, <- H. by rewrite rev_involutive.
  - by apply Forall_rev.
Qed.

Lemma rstrip_head P s c :
  head (rstrip P s) = Some c → head s = Some c.
Proof.
  destruct (rstrip_prefix P s) as (gone & H & _). rewrite H at 2.
  destruct (rstrip P s); [done|]. done.
Qed.

Lemma strip_ends P s :
  (∀ c, head (strip P s) = Some c → P c = false) ∧
  (∀ c, last (strip P s) = Some c → P c = false).
Proof.
  unfold strip. split; intros c Hc.
  - apply rstrip_head in Hc.
    destruct (lstrip_head P s) as [H | (c' & H & Hfalse)]; congruence.
  - destruct (rstrip_last P (lstrip P s)) as [H | (c' & H & Hfalse)]; congruence.
Qed.

Lemma strip_id P s :
  (∀ c, head s = Some c → P c = false) → (∀ c, last s = Some c → P c = false) →
  strip P s = s.
Proof. intros Hh Hl. unfold strip. by rewrite lstrip_id, rstrip_id. Qed.

Lemma strip_idemp P s : strip P (strip P s) = strip P s.
Proof. apply strip_id; apply strip_ends. Qed.

Lemma in_chars_one (c x : ascii) : in_chars [c] x = true ↔ x = c.
Proof. unfold in_chars. rewrite bool_decide_eq_true. set_solver. Qed.

Lemma split_nonempty sep s : split sep s ≠ [].
Proof.
  destruct s as [|c s]; simpl; [done|].
  case_bool_decide; [done|]. by destruct (split sep s).
Qed.

Lemma split_app sep a b : split sep (a ++ sep :: b) = split sep a ++ split sep b.
Proof.
  induction a as [|c a IH]; simpl.
  - by rewrite bool_decide_true.
  - case_bool_decide; rewrite IH; [done|].
    pose proof (split_nonempty sep a). by destruct (split sep a).
Qed.

Lemma split_plain sep s : sep ∉ s → split sep s = [s].
Proof.
  induction s as [|c s IH]; simpl; [done|]. intros H.
  rewrite bool_decide_false, IH by set_solver. done.
Qed.

Lemma startswith_head (c : ascii) s : startswith [c] s = true ↔ head s = Some c.
Proof.
  destruct s as [|x s]; simpl; [done|].
  rewrite andb_true_r, bool_decide_eq_true. naive_solver.
Qed.

Lemma endswith_last (c : ascii) s : endswith [c] s = true ↔ last s = Some c.
Proof.
  unfold endswith. change (rev [c]) with [c].
  by rewrite startswith_head, head_rev.
Qed.

End strip_split.

(** ** Paths and name resolution *)
Section resolution.
Implicit Types (fs : gmap (list text) node) (cur l : location) (segs : list text).

Lemma join_plain (a b : text) :
  a ≠ [] → last a ≠ Some "/"%char → head b ≠ Some "/"%char →
  PosixPath.join a b = a ++ "/" ++ b.
Proof.
  intros Ha Hlast Hhead. unfold PosixPath.join. lits.
  destruct (startswith ["/"%char] b) eqn:Hb.
  { by apply startswith_head in Hb. }
  rewrite bool_decide_false by done.
  destruct (endswith ["/"%char] a) eqn:Hend; [|done].
  by apply endswith_last in Hend.
Qed.

Lemma walk_app fs cur segs more :
  walk fs cur (segs ++ more) = walk fs cur segs ≫= λ l, walk fs l more.
Proof.
  revert cur. induction segs as [|s segs IH]; intros cur; simpl; [done|].
  destruct (is_dir fs cur); [|done].
  destruct (stays s); [done|]. by destruct (goes_up s).
Qed.

Lemma walk_name fs cur n :
  is_name n = true → is_dir fs cur = true → walk fs cur [n] = Some (n :: cur).
Proof.
  unfold is_name. intros [[Hs Hu]%andb_true_iff _]%andb_true_iff Hdir. simpl.
  rewrite Hdir. by destruct (stays n), (goes_up n).
Qed.

Lemma walk_same_dirs fs fs' cur segs :
  (∀ l, is_dir fs' l = is_dir fs l) → walk fs' cur segs = walk fs cur segs.
Proof.
  intros H. revert cur. induction segs as [|s segs IH]; intros cur; simpl; [done|].
  rewrite H. destruct (is_dir fs cur); [|done].
  destruct (stays s); [done|]. by destruct (goes_up s).
Qed.

Lemma walk_more_dirs fs fs' cur segs l :
  (∀ l, is_dir fs l = true → is_dir fs' l = true) →
  walk fs cur segs = Some l → walk fs' cur segs = Some l.
Proof.
  intros H. revert cur. induction segs as [|s segs IH]; intros cur; simpl; [done|].
  destruct (is_dir fs cur) eqn:Hdir; [|done]. rewrite (H _ Hdir).
  destruct (stays s); [apply IH|]. destruct (goes_up s); apply IH.
Qed.

Lemma walk_from_dir fs cur segs l :
  walk fs cur segs = Some l → is_dir fs l = true → is_dir fs cur = true.
Proof.
  destruct segs as [|s segs]; simpl; [by intros [= ->]|].
  by destruct (is_dir fs cur).
Qed.

Lemma is_name_no_slash n : is_name n = true → "/"%char ∉ n.
Proof.
  unfold is_name. intros [_ H%negb_true_iff]%andb_true_iff.
  by apply bool_decide_eq_false in H.
Qed.

Lemma is_name_head n : is_name n = true → head n ≠ Some "/"%char.
Proof.
  intros H%is_name_no_slash Hhead. destruct n as [|c n]; [done|].
  injection Hhead as ->. set_solver.
Qed.

Lemma locate_child fs (sd n : text) l :
  is_name n = true → locate fs sd = Some l → is_dir fs l = true →
  locate fs (sd ++ "/" ++ n) = Some (n :: l).
Proof.
  intros Hn Hl Hdir. unfold locate in *. lits.
  case_bool_decide as Hsd; [done|].
  rewrite bool_decide_false by by destruct sd.
  simpl. rewrite split_app, walk_app, Hl. simpl.
  rewrite (split_plain _ n) by by apply is_name_no_slash.
  by apply walk_name.
Qed.

(** The entries of a directory. *)
Lemma child_name_Some (d k : location) n : child_name d k = Some n ↔ k = n :: d.
Proof.
  unfold child_name. destruct k as [|n' d']; [done|].
  case_bool_decide; naive_solver.
Qed.

Lemma elem_of_children fs (d : location) n :
  n ∈ children fs d ↔ is_Some (fs !! (n :: d)).
Proof.
  unfold children. rewrite list_elem_of_omap. split.
  - intros ([k v] & Hin & Hk). apply elem_of_map_to_list in Hin.
    apply child_name_Some in Hk. simpl in Hk. subst. eauto.
  - intros [v Hv]. exists (n :: d, v). split.
    + by apply elem_of_map_to_list.
    + by apply child_name_Some.
Qed.

Lemma NoDup_children fs (d : location) : NoDup (children fs d).
Proof.
  unfold children. pose proof (NoDup_fst_map_to_list fs) as Hnd.
  induction (map_to_list fs) as [|[k v] l IH]; [constructor|].
  apply NoDup_cons in Hnd as [Hk Hnd]. cbn.
  destruct (child_name d k) as [n|] eqn:Hn; [|by apply IH].
  constructor; [|by apply IH].
  rewrite list_elem_of_omap. intros ([k' v'] & Hin & Hk').
  apply child_name_Some in Hn, Hk'. simpl in Hk'. subst.
  apply Hk. apply list_elem_of_fmap. by exists (n :: d, v').
Qed.

End resolution.

Section listing.
Implicit Types (fs : gmap (list text) node) (l : location).

Lemma locate_join_child fs (tp n : text) l :
  is_name n = true → locate fs tp = Some l → is_dir fs l = true →
  locate fs (PosixPath.join tp n) = Some (n :: l).
Proof.
  intros Hn Hl Hdir. unfold PosixPath.join. lits.
  destruct (startswith ["/"%char] n) eqn:Hhead.
  { apply startswith_head in Hhead. by apply is_name_head in Hn. }
  assert (tp ≠ []) as Htp.
  { intros ->. unfold locate in Hl. by rewrite bool_decide_true in Hl. }
  rewrite bool_decide_false by done. simpl.
  destruct (endswith ["/"%char] tp) eqn:Hend; [|by apply locate_child].
  apply endswith_last, last_Some in Hend as [tp' ->].
  unfold locate in *. rewrite bool_decide_false in Hl by by destruct tp'.
  rewrite bool_decide_false by by destruct tp'.
  rewrite <- (assoc_L (++)). simpl.
  rewrite split_app, walk_app in Hl |- *. simpl in Hl.
  destruct (walk fs [] (split "/" tp')) as [l0|]; [|done]. simpl in *.
  destruct (is_dir fs l0) eqn:Hl0; [|done]. injection Hl as ->.
  rewrite (split_plain _ n) by by apply is_name_no_slash.
  by apply walk_name.
Qed.

Lemma for_each_run {A B} (f : A → M B) (g : A → B) (inv : world → Prop) (xs : list A) w :
  inv w →
  (∀ x w, x ∈ xs → inv w → ∃ w', f x w = (Ret (g x), w') ∧ inv w') →
  ∃ w', for_each f xs w = (Ret (g <$> xs), w') ∧ inv w'.
Proof.
  revert w. induction xs as [|x xs IH]; intros w Hinv Hf; simpl.
  - by exists w.
  - destruct (Hf x w) as (w1 & Hx & Hinv1); [set_solver | done |].
    destruct (IH w1) as (w2 & Hxs & Hinv2); [done | |].
    { intros y w' Hy. apply Hf. set_solver. }
    exists w2. split; [|done].
    rewrite (bind_ret _ _ _ _ _ Hx), (bind_ret _ _ _ _ _ Hxs). done.
Qed.

(** C8.  Listing an existing directory answers with one item per immediate
    child: the names are those of the children, each once; every item gives
    its child's kind, its size (0 for a directory, the byte count for a file)
    and its last-modified time; the count is the number of items; a
    directory without children gives the empty sequence.  Listing a path that
    does not exist answers PATH_NOT_FOUND with status 404.  In both cases the
    files are as they were. *)
Theorem list_directory (folder_path : text) (w : world) :
  let target := PosixPath.join UPLOAD_FOLDER (strip_chars "/" folder_path) in
  (∀ d mtime,
     well_named (files w) →
     locate (files w) target = Some d →
     files w !! d = Some (Dir mtime) →
     ∃ items w',
       list_files folder_path w = (Ret (Listing folder_path items (length items)), w') ∧
       files w' = files w ∧
       NoDup (item_name <$> items) ∧
       (∀ n, n ∈ item_name <$> items ↔ is_Some (files w !! (n :: d))) ∧
       (∀ it, it ∈ items →
          ∃ nd, files w !! (item_name it :: d) = Some nd ∧ it = entry_of (item_name it) nd) ∧
       ((∀ n, files w !! (n :: d) = None) → items = [])) ∧
  (stat (files w) target = None →
     ∃ w',
       list_files folder_path w = (Ret (Failure PATH_NOT_FOUND 404), w') ∧
       files w' = files w).
Proof.
  intros target. split.
  - intros d mtime Hnames Hl Hd.
    assert (is_dir (files w) d = true) as Hdir by (unfold is_dir; by rewrite Hd).
    set (fs := files w) in *.
    set (g := λ n : text, match fs !! (n :: d) with
                          | Some nd => entry_of n nd
                          | None => Item n file 0 mtime
                          end).
    set (body := λ item : text,
           let item_path := PosixPath.join target item in
           let* is_dir := path_isdir item_path in
           let* size := if (is_dir : bool) then ret 0 else getsize item_path in
           let* mtime := getmtime item_path in
           ret (Item item (if is_dir then directory else file) size mtime)).
    destruct (for_each_run body g (λ w', files w' = fs) (children fs d)
                (logged (SysListdir target) (logged (SysStat target) w)))
      as (w' & Hloop & Hfiles); [done | |].
    { intros n w0 Hn Hw0. apply elem_of_children in Hn as [nd Hnd].
      assert (is_name n = true) as Hname.
      { specialize (Hnames _ _ Hnd). simpl in Hnames. by apply Forall_cons in Hnames as [? _]. }
      assert (stat (files w0) (PosixPath.join target n) = Some nd) as Hstat.
      { unfold stat. rewrite Hw0. by erewrite locate_join_child. }
      unfold body, g. rewrite Hnd.
      rewrite run_path_isdir, Hstat.
      destruct nd as [t | content t]; cbv beta iota.
      - rewrite bind_pure, run_getmtime. cbn [files logged]. rewrite Hstat. eauto.
      - rewrite run_getsize. cbn [files logged]. rewrite Hstat.
        rewrite run_getmtime. cbn [files logged]. rewrite Hstat. eauto. }
    exists (g <$> children fs d), w'.
    assert (item_name <$> (g <$> children fs d) = children fs d) as Hnames'.
    { rewrite <- list_fmap_compose. rewrite <- (list_fmap_id (children fs d)) at 2.
      apply list_fmap_ext. intros _ n _. unfold g. simpl.
      by destruct (fs !! (n :: d)) as [[]|]. }
    split; [|split; [done|split; [|split; [|split]]]].
    + unfold list_files, try_except.
      rewrite run_path_exists. unfold stat. fold target fs. rewrite Hl. simpl.
      rewrite Hd, bool_decide_true by eauto. cbn [negb].
      rewrite run_listdir. cbn [files logged]. fold fs. rewrite Hl, Hd.
      fold body. rewrite (bind_ret _ _ _ _ _ Hloop). done.
    + rewrite Hnames'. apply NoDup_children.
    + intros n. rewrite Hnames'. apply elem_of_children.
    + intros it (n & -> & Hn)%list_elem_of_fmap.
      apply elem_of_children in Hn as [nd Hnd].
      assert (item_name (g n) = n) as ->.
      { unfold g. rewrite Hnd. by destruct nd. }
      exists nd. split; [done|]. unfold g. by rewrite Hnd.
    + intros Hnone. destruct (children fs d) as [|n ns] eqn:Hch; [done|].
      assert (n ∈ children fs d) as Hn by (rewrite Hch; set_solver).
      apply elem_of_children in Hn as [nd Hnd]. by rewrite Hnone in Hnd.
  - intros Hstat. eexists. unfold list_files, try_except.
    rewrite run_path_exists. fold target. rewrite Hstat.
    rewrite bool_decide_false by by intros [? ?]. simpl. done.
Qed.

Lemma list_directory_witness :
  let w := (create_folder (make_folder "a/b/c") (booted ticking)).2 in
  (∃ items w',
     list_files "a/b" w = (Ret (Listing "a/b" items (length items)), w') ∧
     files w' = files w ∧
     NoDup (item_name <$> items) ∧
     (∀ n, n ∈ item_name <$> items ↔ is_Some (files w !! (n :: spot ["b"; "a"; "files"; "app"]))) ∧
     (∀ it, it ∈ items →
        ∃ nd, files w !! (item_name it :: spot ["b"; "a"; "files"; "app"]) = Some nd ∧
              it = entry_of (item_name it) nd) ∧
     ((∀ n, files w !! (n :: spot ["b"; "a"; "files"; "app"]) = None) → items = [])) ∧
  (∃ w',
     list_files "a/x" w = (Ret (Failure PATH_NOT_FOUND 404), w') ∧
     files w' = files w).
Proof.
  intros w. split.
  - apply (proj1 (list_directory "a/b" w) _ (ticking 0)).
    + apply (bool_decide_unpack (well_named (files w))). by vm_compute.
    + by vm_compute.
    + by vm_compute.
  - apply (proj2 (list_directory "a/x" w)). by vm_compute.
Defined.

End listing.

(** ** Making directories *)
Section making_directories.
Implicit Types (fs : gmap (list text) node) (cur l : location) (segs : list text).

Lemma walk_step fs cur s rest :
  walk fs cur (s :: rest) = if is_dir fs cur then walk fs (step cur s) rest else None.
Proof. unfold step. simpl. destruct (is_dir fs cur), (stays s), (goes_up s); done. Qed.

Lemma is_dir_touch t d fs l : is_dir (touch t d fs) l = is_dir fs l.
Proof.
  unfold touch, is_dir. destruct (fs !! d) as [[t'|]|] eqn:Hd; [|done..].
  destruct (decide (l = d)) as [->|]; [by rewrite lookup_insert_eq, Hd|].
  by rewrite lookup_insert_ne.
Qed.

Lemma is_file_touch t d fs l : is_file (touch t d fs) l = is_file fs l.
Proof.
  unfold touch, is_file. destruct (fs !! d) as [[t'|]|] eqn:Hd; [|done..].
  destruct (decide (l = d)) as [->|]; [by rewrite lookup_insert_eq, Hd|].
  by rewrite lookup_insert_ne.
Qed.

Lemma touch_file t d fs l content t' :
  fs !! l = Some (File content t') → touch t d fs !! l = Some (File content t').
Proof.
  intros Hl. unfold touch. destruct (fs !! d) as [[t''|]|] eqn:Hd; [|done..].
  rewrite lookup_insert_ne; [done|]. congruence.
Qed.


Lemma is_dir_mkdir t l fs k : is_dir (mkdir t l fs) k = bool_decide (k = l) || is_dir fs k.
Proof.
  unfold mkdir. case_bool_decide as Hk; simpl.
  - subst. unfold is_dir. by rewrite lookup_insert_eq.
  - unfold is_dir at 1. rewrite lookup_insert_ne by done. apply is_dir_touch.
Qed.

Lemma is_file_mkdir t l fs k : fs !! l = None → is_file (mkdir t l fs) k = is_file fs k.
Proof.
  intros Hl. unfold mkdir. destruct (decide (k = l)) as [->|].
  - unfold is_file. by rewrite lookup_insert_eq, Hl.
  - unfold is_file at 1. rewrite lookup_insert_ne by done. apply is_file_touch.
Qed.

Lemma extends_refl fs : extends fs fs.
Proof. intros k. unfold is_dir. by destruct (fs !! k) as [[]|]. Qed.

Lemma extends_trans fs1 fs2 fs3 : extends fs1 fs2 → extends fs2 fs3 → extends fs1 fs3.
Proof.
  intros H12 H23 k. specialize (H12 k). specialize (H23 k).
  destruct (fs1 !! k) as [[t|content t]|]; [|by rewrite H12 in H23|done].
  unfold is_dir in H12. by destruct (fs2 !! k) as [[]|].
Qed.

Lemma extends_is_dir fs fs' l : extends fs fs' → is_dir fs l = true → is_dir fs' l = true.
Proof.
  intros H Hl. specialize (H l). unfold is_dir in Hl. by destruct (fs !! l) as [[]|].
Qed.

Lemma extends_mkdir t l fs : fs !! l = None → extends fs (mkdir t l fs).
Proof.
  intros Hl k. destruct (fs !! k) as [[t'|content t']|] eqn:Hk; [| |done].
  - rewrite is_dir_mkdir. unfold is_dir. rewrite Hk. apply orb_true_r.
  - unfold mkdir. rewrite lookup_insert_ne by congruence. by apply touch_file.
Qed.

Lemma makedirs_walk_extends t fs cur segs fs' :
  makedirs_walk t fs cur segs = inr fs' → extends fs fs'.
Proof.
  revert fs cur. induction segs as [|s segs IH]; intros fs cur; simpl.
  - destruct (is_dir fs cur); [|done]. intros [= ->]. apply extends_refl.
  - destruct (is_dir fs cur); [|done].
    destruct (stays s); [apply IH|]. destruct (goes_up s); [apply IH|].
    destruct (fs !! (s :: cur)) eqn:Hc; [apply IH|].
    intros H%IH. eapply extends_trans; [|done]. by apply extends_mkdir.
Qed.

Lemma makedirs_walk_trail t fs cur segs fs' :
  makedirs_walk t fs cur segs = inr fs' →
  Forall (λ l, is_dir fs' l = true) (trail cur segs).
Proof.
  revert fs cur. induction segs as [|s segs IH]; intros fs cur; simpl.
  - destruct (is_dir fs cur) eqn:Hcur; [|done]. intros [= <-]. by constructor.
  - intros H. constructor.
    + pose proof (makedirs_walk_extends t fs cur (s :: segs) fs' H) as Hext.
      eapply extends_is_dir; [done|]. simpl in H. by destruct (is_dir fs cur).
    + unfold step. destruct (is_dir fs cur); [|done].
      destruct (stays s); [by eapply IH|]. destruct (goes_up s); [by eapply IH|].
      destruct (fs !! (s :: cur)); by eapply IH.
Qed.

Lemma walk_trail fs cur segs :
  Forall (λ l, is_dir fs l = true) (trail cur segs) → walk fs cur segs = Some (lexical cur segs).
Proof.
  revert cur. induction segs as [|s segs IH]; intros cur; [done|].
  intros [Hcur Hrest]%Forall_cons. rewrite walk_step, Hcur. by apply IH.
Qed.


Lemma makedirs_walk_existing t fs cur segs l :
  walk fs cur segs = Some l → is_dir fs l = true → makedirs_walk t fs cur segs = inr fs.
Proof.
  revert cur. induction segs as [|s segs IH]; intros cur; simpl.
  - intros [= ->] ->. done.
  - destruct (is_dir fs cur); [|done].
    destruct (stays s); [apply IH|]. destruct (goes_up s); [apply IH|].
    intros Hwalk Hl. pose proof (walk_from_dir _ _ _ _ Hwalk Hl) as Hc.
    unfold is_dir in Hc. destruct (fs !! (s :: cur)) as [[]|]; [|done..]. by apply IH.
Qed.

Lemma rooted_mkdir t s cur fs :
  rooted fs → is_dir fs cur = true → rooted (mkdir t (s :: cur) fs).
Proof.
  intros [Hroot Hall] Hcur. split.
  - rewrite is_dir_mkdir, Hroot. apply orb_true_r.
  - intros k nd Hk. rewrite is_dir_mkdir. apply orb_true_iff.
    destruct (decide (k = s :: cur)) as [->|Hne]; [by right|].
    right. unfold mkdir in Hk. rewrite lookup_insert_ne in Hk by done.
    unfold touch in Hk. destruct (fs !! parent (s :: cur)) as [[]|] eqn:Hp.
    + destruct (decide (k = parent (s :: cur))) as [->|Hne'].
      * by eapply Hall.
      * rewrite lookup_insert_ne in Hk by done. by eapply Hall.
    + by eapply Hall.
    + by eapply Hall.
Qed.

Lemma rooted_parent fs l : rooted fs → is_dir fs l = true → is_dir fs (parent l) = true.
Proof.
  intros [_ Hall] Hl. unfold is_dir in Hl.
  destruct (fs !! l) eqn:Hk; [|done]. by eapply Hall.
Qed.

Lemma not_file_dir_or_none fs l :
  is_file fs l = false → is_dir fs l = true ∨ fs !! l = None.
Proof. unfold is_file, is_dir. destruct (fs !! l) as [[]|]; auto. Qed.

Lemma makedirs_walk_succeeds t fs cur segs :
  rooted fs → is_dir fs cur = true →
  Forall (λ l, is_file fs l = false) (trail cur segs) →
  ∃ fs', makedirs_walk t fs cur segs = inr fs' ∧ rooted fs'.
Proof.
  revert fs cur. induction segs as [|s segs IH]; intros fs cur Hroot Hcur Hclear; simpl.
  - rewrite Hcur. eauto.
  - rewrite Hcur. apply Forall_cons in Hclear as [_ Hclear]. unfold step in Hclear.
    destruct (stays s); [by apply IH|].
    destruct (goes_up s); [apply IH; [done | by apply rooted_parent | done]|].
    assert (is_file fs (s :: cur) = false) as Hfile.
    { destruct segs; by apply Forall_cons in Hclear as [? _]. }
    destruct (not_file_dir_or_none _ _ Hfile) as [Hdir | Hnone].
    + unfold is_dir in Hdir. destruct (fs !! (s :: cur)) as [[]|] eqn:Hc; [|done..].
      apply IH; [done | by unfold is_dir; rewrite Hc | done].
    + rewrite Hnone. apply IH.
      * by apply rooted_mkdir.
      * rewrite is_dir_mkdir, bool_decide_true by done. done.
      * eapply Forall_impl; [done|]. intros l Hl. simpl in Hl.
        by rewrite is_file_mkdir.
Qed.



End making_directories.

Section resolve_directory.
Implicit Types (fs : gmap (list text) node) (cur l : location) (segs : list text).


Lemma join_root (x : text) :
  head x ≠ Some "/"%char → PosixPath.join UPLOAD_FOLDER x = UPLOAD_FOLDER ++ "/" ++ x.
Proof. intros Hx. by apply join_plain. Qed.

Lemma strip_slash_head (s : text) : head (strip_chars "/" s) ≠ Some "/"%char.
Proof.
  intros H. destruct (strip_ends (in_chars "/") s) as [Hh _].
  apply Hh in H. by vm_compute in H.
Qed.

Lemma strip_slash_last (s : text) : last (strip_chars "/" s) ≠ Some "/"%char.
Proof.
  intros H. destruct (strip_ends (in_chars "/") s) as [_ Hl].
  apply Hl in H. by vm_compute in H.
Qed.

Lemma run_create_directory {B} (path : text) (k : text → M B) (w : world) :
  let full_path := UPLOAD_FOLDER ++ "/" ++ strip_chars "/" path in
  bind (create_directory path) k w
  = match makedirs_walk (wall w) (files w) [] (split "/" full_path) with
    | inr fs' => k full_path (with_files fs' (logged (SysMakedirs full_path) w))
    | inl (e, fs') => (Raise e, with_files fs' (logged (SysMakedirs full_path) w))
    end.
Proof.
  intros full_path. unfold create_directory.
  rewrite join_root by apply strip_slash_head. fold full_path.
  unfold bind at 1. rewrite run_makedirs. unfold makedirs_tree.
  rewrite bool_decide_false by done.
  by destruct (makedirs_walk _ _ _ _) as [[]|].
Qed.

Lemma create_directory_eq (path : text) (w : world) :
  create_directory path w = bind (create_directory path) ret w.
Proof. unfold bind. by destruct (create_directory path w) as [[]]. Qed.



End resolve_directory.

(** ** Sanitized filenames *)
Section sanitizing.
Import Werkzeug.
Implicit Types (s t : text) (c : ascii).

Lemma filter_all (P : ascii → Prop) `{!∀ c, Decision (P c)} s : Forall P s → filter P s = s.
Proof.
  induction 1 as [|c s Hc _ IH]; [done|]. by rewrite filter_cons_True, IH.
Qed.

Lemma lstrip_sub P s c : c ∈ lstrip P s → c ∈ s.
Proof.
  destruct (lstrip_suffix P s) as (gone & H & _). rewrite H at 2. set_solver.
Qed.

Lemma rstrip_sub P s c : c ∈ rstrip P s → c ∈ s.
Proof.
  destruct (rstrip_prefix P s) as (gone & H & _). rewrite H at 2. set_solver.
Qed.

Lemma strip_sub P s c : c ∈ strip P s → c ∈ s.
Proof. unfold strip. intros H%rstrip_sub. by apply lstrip_sub in H. Qed.

Lemma secure_filename_safe s c : c ∈ secure_filename s → safe_char c = true.
Proof.
  unfold secure_filename, strip_chars. intros H%strip_sub.
  by apply list_elem_of_filter in H as [? _].
Qed.

Lemma secure_filename_no_slash s : "/"%char ∉ secure_filename s.
Proof. intros H%secure_filename_safe. by vm_compute in H. Qed.

Lemma is_alpha_ranges c :
  is_alpha c = true → (65 ≤ Str.code c ∧ Str.code c ≤ 90) ∨ (97 ≤ Str.code c ∧ Str.code c ≤ 122).
Proof.
  unfold is_alpha, is_upper, is_lower.
  rewrite orb_true_iff, !andb_true_iff, !Nat.leb_le. tauto.
Qed.

Lemma is_alpha_plain c :
  is_alpha c = true →
  is_ascii c = true ∧ is_space c = false ∧ safe_char c = true ∧
  c ≠ "/"%char ∧ in_chars "._" c = false.
Proof.
  intros Halpha. pose proof (is_alpha_ranges c Halpha) as Hc.
  split; [|split; [|split; [|split]]].
  - unfold is_ascii. apply Nat.ltb_lt. lia.
  - unfold is_space. apply orb_false_iff.
    split; apply andb_false_iff; rewrite !Nat.leb_gt; lia.
  - unfold safe_char. unfold is_alpha in Halpha.
    apply orb_true_iff in Halpha as [-> | ->]; [done|]. by rewrite orb_true_r.
  - intros ->. by vm_compute in Halpha.
  - unfold in_chars. apply bool_decide_eq_false. intros Hin.
    lits. set_solver by (intros ->; by vm_compute in Halpha).
Qed.

Lemma lower_char_alpha c : is_lower (lower_char c) = true → is_alpha c = true.
Proof.
  unfold lower_char, is_alpha. destruct (is_upper c); [done|]. by intros ->.
Qed.

Lemma allowed_extension_alpha (ext : text) :
  lower ext ∈ ALLOWED_EXTENSIONS → ext ≠ [] ∧ Forall (λ c, is_alpha c = true) ext.
Proof.
  intros Hin.
  assert (Forall (λ e : text, e ≠ [] ∧ Forall (λ c, is_lower c = true) e) ALLOWED_EXTENSIONS)
    as Hall.
  { apply (bool_decide_unpack (Forall _ _)). by vm_compute. }
  rewrite Forall_forall in Hall. destruct (Hall _ Hin) as [Hne Hlow]. split.
  - intros ->. done.
  - unfold lower in Hlow. apply Forall_fmap in Hlow.
    eapply Forall_impl; [done|]. intros c. apply lower_char_alpha.
Qed.

(** Joining what split() gives keeps a final run without white space. *)
Lemma split_ws_word s : s ≠ [] → Forall (λ c, is_space c = false) s → split_ws s = [s].
Proof.
  induction s as [|c s IH]; [done|]. intros _ [Hc Hs]%Forall_cons. simpl. rewrite Hc.
  destruct s as [|c' s]; [done|].
  pose proof Hs as [Hc' _]%Forall_cons. rewrite Hc', IH by done. done.
Qed.

Lemma join_cons_head sep c (h : text) (pieces : list text) :
  Str.join sep ((c :: h) :: pieces) = c :: Str.join sep (h :: pieces).
Proof. by destruct pieces. Qed.

Lemma join_split_ws_end s t :
  t ≠ [] → Forall (λ c, is_space c = false) t →
  ∃ front, Str.join "_" (split_ws (s ++ t)) = front ++ t.
Proof.
  intros Ht Hns. induction s as [|c s (front & IH)].
  - exists []. simpl. by rewrite split_ws_word.
  - assert (split_ws (s ++ t) ≠ []) as Hne.
    { intros Heq. rewrite Heq in IH. simpl in IH. by destruct front, t. }
    cbn [app split_ws]. destruct (is_space c); [by exists front|].
    destruct (s ++ t) as [|c' r] eqn:Hst.
    { by destruct s, t. }
    destruct (split_ws (c' :: r)) as [|h tl] eqn:Hsp; [done|].
    destruct (is_space c').
    + exists (c :: "_" ++ front). change (Str.join "_" ([c] :: h :: tl))
        with (c :: "_" ++ Str.join "_" (h :: tl)). by rewrite IH.
    + rewrite join_cons_head, IH. by exists (c :: front).
Qed.

Lemma rstrip_keep P s c : P c = false → rstrip P (s ++ [c]) = s ++ [c].
Proof. intros Hc. apply rstrip_id. intros c'. rewrite last_snoc. by intros [= <-]. Qed.

(** Sanitizing keeps an alphabetic extension, case and all. *)
Lemma secure_filename_end (stem ext : text) :
  ext ≠ [] → Forall (λ c, is_alpha c = true) ext →
  ∃ front, secure_filename (stem ++ "." ++ ext) = front ++ ext.
Proof.
  intros Hne Halpha.
  assert (Forall (λ c, is_ascii c = true ∧ is_space c = false ∧ safe_char c = true ∧
                       c ≠ "/"%char ∧ in_chars "._" c = false) ext) as Hplain.
  { eapply Forall_impl; [done|]. apply is_alpha_plain. }
  unfold secure_filename. lits.
  rewrite !filter_app.
  assert (filter (λ c, is_ascii c = true) ext = ext) as ->.
  { apply filter_all. eapply Forall_impl; [done|]. naive_solver. }
  unfold replace at 1. rewrite !fmap_app.
  assert ((λ c, if bool_decide (c = "/"%char) then " "%char else c) <$> ext = ext) as ->.
  { rewrite <- (list_fmap_id ext) at 2. apply Forall_fmap_ext.
    eapply Forall_impl; [done|]. intros c (_ & _ & _ & Hc & _). simpl.
    by rewrite bool_decide_false. }
  destruct (join_split_ws_end
              (((λ c, if bool_decide (c = "/"%char) then " "%char else c)
                  <$> filter (λ c, is_ascii c = true) stem)
               ++ ((λ c, if bool_decide (c = "/"%char) then " "%char else c)
                  <$> filter (λ c, is_ascii c = true) ["."%char])) ext)
    as (front & Hfront); [done | |].
  { eapply Forall_impl; [done|]. naive_solver. }
  lits. rewrite <- (assoc_L (++)) in Hfront. rewrite Hfront, filter_app.
  assert (filter (λ c, safe_char c = true) ext = ext) as ->.
  { apply filter_all. eapply Forall_impl; [done|]. naive_solver. }
  destruct ext as [|c ext _] using rev_ind; [done|].
  apply Forall_app in Hplain as [_ [Hc _]%Forall_cons].
  destruct Hc as (_ & _ & _ & _ & Hc).
  unfold strip_chars, strip.
  destruct ext as [|c0 ext].
  - simpl. destruct (lstrip_app_keep (in_chars "._") (filter (λ c, safe_char c = true) front) c [])
      as (kept & Hkept); [done|].
    lits. rewrite Hkept. exists kept. by apply rstrip_keep.
  - apply Forall_cons in Halpha as [Hc0 _]. apply is_alpha_plain in Hc0.
    destruct Hc0 as (_ & _ & _ & _ & Hc0).
    destruct (lstrip_app_keep (in_chars "._") (filter (λ c, safe_char c = true) front)
                c0 (ext ++ [c])) as (kept & Hkept); [done|].
    lits. simpl. simpl in Hkept. rewrite Hkept. exists kept.
    change (kept ++ c0 :: ext ++ [c]) with (kept ++ (c0 :: ext) ++ [c]).
    rewrite (assoc_L (++)). by apply rstrip_keep.
Qed.

End sanitizing.

(** ** The names uploads are stored under *)
Section stored_names.
Import Werkzeug.
Implicit Types (n s : text) (c : ascii).

Lemma is_name_other n c : c ∈ n → c ≠ "."%char → "/"%char ∉ n → is_name n = true.
Proof.
  intros Hc Hdot Hslash. unfold is_name, stays, goes_up. lits.
  rewrite (bool_decide_false (_ ∈ _)) by done.
  rewrite !bool_decide_false; [done | | |]; intros ->; set_solver.
Qed.

Lemma is_lower_plain c : is_lower c = true → c ≠ "."%char ∧ c ≠ "/"%char.
Proof. intros H. split; intros ->; by vm_compute in H. Qed.

Lemma allowed_extension_lower (ext : text) :
  lower ext ∈ ALLOWED_EXTENSIONS →
  lower ext ≠ [] ∧ Forall (λ c, is_lower c = true) (lower ext).
Proof.
  intros Hin.
  assert (Forall (λ e : text, e ≠ [] ∧ Forall (λ c, is_lower c = true) e) ALLOWED_EXTENSIONS)
    as Hall.
  { apply (bool_decide_unpack (Forall _ _)). by vm_compute. }
  rewrite Forall_forall in Hall. by apply Hall.
Qed.

Lemma rsplit1_extension (stem ext : text) :
  "."%char ∉ ext → rsplit1 "." (stem ++ "." ++ ext) !! 1 = Some ext.
Proof.
  intros Hext. unfold rsplit1. lits.
  assert (rpartition "." (stem ++ ["."%char] ++ ext) = Some (stem, ext)) as ->
    by by apply rpartition_Some.
  done.
Qed.

Lemma resolve_filename_name (original field : text) :
  allowed_file original = true → is_name (resolve_filename original field) = true.
Proof.
  intros (stem & ext & -> & Hdot & Hin)%allowed_file_spec.
  unfold resolve_filename. case_bool_decide as Hcustom.
  - destruct (allowed_extension_alpha ext Hin) as [Hne Halpha].
    destruct (secure_filename_end stem ext Hne Halpha) as (front & Hend).
    destruct ext as [|c ext]; [done|].
    apply Forall_cons in Halpha as [Hc _]. apply is_alpha_plain in Hc.
    apply (is_name_other _ c).
    + rewrite Hend. set_solver.
    + intros ->. destruct Hc as (_ & _ & _ & _ & Hc). by vm_compute in Hc.
    + apply secure_filename_no_slash.
  - rewrite rsplit1_extension by done. simpl.
    destruct (allowed_extension_lower ext Hin) as [Hne Hlow].
    destruct (lower ext) as [|c e]; [done|].
    pose proof Hlow as [Hc _]%Forall_cons.
    apply (is_name_other _ c).
    + set_solver.
    + by apply is_lower_plain.
    + rewrite not_elem_of_app. split; [apply secure_filename_no_slash|].
      intros Hs. apply elem_of_cons in Hs as [Hs | Hs]; [done|].
      rewrite Forall_forall in Hlow. apply Hlow, is_lower_plain in Hs. naive_solver.
Qed.

Lemma splitext_app (p : text) : (PosixPath.splitext p).1 ++ (PosixPath.splitext p).2 = p.
Proof.
  unfold PosixPath.splitext. destruct (_ && _); simpl.
  - apply take_drop.
  - apply app_nil_r.
Qed.

Lemma digit_no_slash k : Clock.digit k ≠ "/"%char.
Proof.
  unfold Clock.digit. intros H. apply (f_equal nat_of_ascii) in H.
  rewrite nat_ascii_embedding in H.
  - change (nat_of_ascii "/") with 47 in H. lia.
  - pose proof (Nat.mod_upper_bound k 10). lia.
Qed.

Lemma strftime_stamp_no_slash t : "/"%char ∉ strftime_stamp t.
Proof.
  unfold strftime_stamp, pad4, pad2. lits. intros H.
  repeat (apply elem_of_app in H as [H|H] || apply elem_of_cons in H as [H|H]);
    try (by apply elem_of_nil in H); try (symmetry in H; by apply digit_no_slash in H); done.
Qed.

Lemma is_name_stamped n t : "/"%char ∉ n → is_name (stamped n t) = true.
Proof.
  intros Hn. unfold stamped. pose proof (splitext_app n) as Happ.
  destruct (PosixPath.splitext n) as [name ext]. simpl in Happ. subst n.
  apply (is_name_other _ "_"%char); [lits; set_solver | done |].
  rewrite !not_elem_of_app in *. split; [tauto|].
  split; [lits; set_solver|]. split; [apply strftime_stamp_no_slash | tauto].
Qed.

Lemma stamped_differs n t : stamped n t ≠ n.
Proof.
  unfold stamped. pose proof (splitext_app n) as Happ.
  destruct (PosixPath.splitext n) as [name ext]. simpl in Happ. intros H.
  apply (f_equal length) in H. rewrite <- Happ in H.
  rewrite !length_app in H. lits. simpl in H. lia.
Qed.

End stored_names.

(** ** Upload: where the content goes *)
Section placing.
Implicit Types (w : world) (sd : text) (d : location).

Lemma resolve_directory_run (field : text) w sd w1 :
  let upload_path := strip_chars "/" field in
  resolve_directory upload_path w = (Ret sd, w1) →
  sd = (if bool_decide (upload_path = []) then UPLOAD_FOLDER
        else UPLOAD_FOLDER ++ "/" ++ upload_path) ∧
  wall w1 = wall w.
Proof.
  intros upload_path. unfold resolve_directory. case_bool_decide as Hup; simpl.
  - by intros [= <- <-].
  - rewrite create_directory_eq, run_create_directory.
    destruct (makedirs_walk _ _ _ _) as [[]|]; [done|]. intros [= <- <-].
    unfold upload_path, strip_chars. by rewrite strip_idemp.
Qed.

Lemma save_directory_shape (field : text) :
  let upload_path := strip_chars "/" field in
  let sd := if bool_decide (upload_path = []) then UPLOAD_FOLDER
            else UPLOAD_FOLDER ++ "/" ++ upload_path in
  sd ≠ [] ∧ last sd ≠ Some "/"%char.
Proof.
  intros upload_path sd. unfold sd. case_bool_decide as Hup; [done|]. split; [done|].
  rewrite !last_app. pose proof (strip_slash_last field) as Hlast. fold upload_path in Hlast.
  destruct (last upload_path) eqn:Hl; [done|]. by apply last_None in Hl.
Qed.

Lemma wanted_name_run (filename field : text) w :
  allowed_file filename = true →
  (if negb (bool_decide (strip_ws field = [])) then
     let* original_ext := index1 (rsplit1 "." filename) in
     ret (Werkzeug.secure_filename (strip_ws field) ++ "." ++ lower original_ext)
   else ret (Werkzeug.secure_filename filename)) w
  = (Ret (resolve_filename filename field), w).
Proof.
  intros (stem & ext & -> & Hdot & Hin)%allowed_file_spec.
  unfold resolve_filename. case_bool_decide; [done|]. cbn [negb].
  unfold bind, index1. by rewrite rsplit1_extension.
Qed.

Lemma write_tree_child t fs (sd n : text) d content :
  sd ≠ [] → is_name n = true →
  locate fs sd = Some d → is_dir fs d = true → is_dir fs (n :: d) = false →
  ∃ fs',
    write_tree t fs (sd ++ "/" ++ n) content = inr fs' ∧
    fs' !! (n :: d) = Some (File content t) ∧
    (∀ k, k ≠ n :: d → k ≠ d → fs' !! k = fs !! k) ∧
    (∀ l, is_dir fs' l = is_dir fs l).
Proof.
  intros Hsd Hn Hd Hdir Hfree. unfold write_tree.
  rewrite (locate_child fs sd n d) by done.
  unfold is_dir in Hfree. destruct (fs !! (n :: d)) as [[t'|content' t']|] eqn:Hk; [done| |].
  - eexists. split; [done|]. split; [by rewrite lookup_insert_eq|]. split.
    + intros k Hne _. by rewrite lookup_insert_ne.
    + intros l. unfold is_dir. destruct (decide (l = n :: d)) as [->|].
      * by rewrite lookup_insert_eq, Hk.
      * by rewrite lookup_insert_ne.
  - cbn [parent tail]. rewrite Hdir. simpl.
    eexists. split; [done|]. split; [by rewrite lookup_insert_eq|]. split.
    + intros k Hne Hne'. rewrite lookup_insert_ne by done.
      unfold touch. destruct (fs !! d) as [[]|]; [|done..]. by rewrite lookup_insert_ne.
    + intros l. unfold is_dir at 1. destruct (decide (l = n :: d)) as [->|].
      * rewrite lookup_insert_eq. unfold is_dir. by rewrite Hk.
      * rewrite lookup_insert_ne by done. apply is_dir_touch.
Qed.

(** The run of upload_file once the checks have passed and the directory is
    there: the content goes to the wanted name, or to the stamped one when
    the wanted one is taken. *)
Lemma upload_stores (request : upload_request) w filename content sd w1 d :
  req_file request = Some (filename, content) →
  filename ≠ [] →
  allowed_file filename = true →
  let upload_path := strip_chars "/" (form_get (req_path request)) in
  let wanted := resolve_filename filename (form_get (req_filename request)) in
  resolve_directory upload_path w = (Ret sd, w1) →
  locate (files w1) sd = Some d →
  is_dir (files w1) d = true →
  let stored := if bool_decide (is_Some (files w1 !! (wanted :: d)))
                then stamped wanted (wall w) else wanted in
  is_dir (files w1) (stored :: d) = false →
  ∃ mtime upload_time w',
    upload_file request w
    = (Ret (Uploaded stored (relative_path upload_path stored) (file_url upload_path stored)
              (length content) upload_time), w') ∧
    files w' !! (stored :: d) = Some (File content mtime) ∧
    (∀ k, k ≠ stored :: d → k ≠ d → files w' !! k = files w1 !! k) ∧
    (∀ l, is_dir (files w') l = is_dir (files w1) l).
Proof.
  intros Hfile Hne Hallowed upload_path wanted Hdir Hd Hisdir stored Hfree.
  destruct (resolve_directory_run _ _ _ _ Hdir) as [Hsd Hwall].
  destruct (save_directory_shape (form_get (req_path request))) as [Hsd_ne Hsd_last].
  fold upload_path in Hsd, Hsd_ne, Hsd_last. rewrite <- Hsd in Hsd_ne, Hsd_last.
  assert (is_name wanted = true) as Hwanted by by apply resolve_filename_name.
  assert (is_name stored = true) as Hstored.
  { unfold stored. destruct (bool_decide (is_Some _)); [|done].
    apply is_name_stamped. by apply is_name_no_slash. }
  assert (∀ n, is_name n = true → PosixPath.join sd n = sd ++ "/" ++ n) as Hjoin.
  { intros n Hn. apply join_plain; [done..|]. by apply is_name_head. }
  unfold upload_file, try_except. rewrite Hfile, bool_decide_false, Hallowed by done.
  cbn [negb]. fold upload_path.
  rewrite (bind_ret _ _ _ _ _ (wanted_name_run _ _ _ Hallowed)). fold wanted.
  change (if negb (bool_decide (upload_path = [])) then create_directory upload_path
          else ret UPLOAD_FOLDER) with (resolve_directory upload_path).
  rewrite (bind_ret _ _ _ _ _ Hdir).
  rewrite run_path_exists.
  assert (stat (files w1) (PosixPath.join sd wanted) = files w1 !! (wanted :: d)) as ->.
  { unfold stat. rewrite Hjoin by done. by rewrite (locate_child _ sd wanted d). }
  assert (∃ w2,
    (if bool_decide (is_Some (files w1 !! (wanted :: d)))
     then
       let '(name, ext) := PosixPath.splitext wanted in
       let* now := datetime_now in
       ret (name ++ "_" ++ strftime_stamp now ++ ext,
            PosixPath.join sd (name ++ "_" ++ strftime_stamp now ++ ext))
     else ret (wanted, PosixPath.join sd wanted))
      (logged (SysStat (PosixPath.join sd wanted)) w1)
    = (Ret (stored, sd ++ "/" ++ stored), w2) ∧ files w2 = files w1) as (w2 & Hrenamed & Hfiles2).
  { rewrite <- (Hjoin stored) by done. unfold stored in *.
    destruct (bool_decide (is_Some (files w1 !! (wanted :: d)))).
    - unfold stamped in *. destruct (PosixPath.splitext wanted) as [name ext].
      rewrite run_datetime_now. unfold wall at 1 2. cbn [clock ticks logged].
      fold (wall w1). rewrite Hwall. by eexists.
    - by eexists. }
  rewrite (bind_ret _ _ _ _ _ Hrenamed). cbv beta iota.
  rewrite run_save.
  destruct (write_tree_child (wall w2) (files w2) sd stored d content)
    as (fs' & Hwrite & Hstored' & Hframe & Hdirs); [done | done | by rewrite Hfiles2..|].
  rewrite Hwrite.
  assert (stat fs' (sd ++ "/" ++ stored) = Some (File content (wall w2))) as Hstat.
  { unfold stat. rewrite (locate_child _ sd stored d); [done | done | |].
    - unfold locate in *. rewrite (walk_same_dirs (files w2) fs') by done.
      by rewrite Hfiles2.
    - by rewrite Hdirs, Hfiles2. }
  exists (wall w2).
  destruct (negb (bool_decide (upload_path = []))) eqn:Hup;
    unfold relative_path, file_url; rewrite Hup;
    rewrite run_getsize; cbn [files with_files logged]; rewrite Hstat;
    rewrite run_datetime_now; (do 2 eexists); (split; [done|]);
    cbn [files with_files logged ticked]; rewrite <- Hfiles2; done.
Qed.

Lemma rfind_child (sd n : text) :
  "/"%char ∉ n → rfind "/" (sd ++ "/" ++ n) = Z.of_nat (length sd).
Proof.
  intros Hn. unfold rfind. lits.
  by rewrite (proj2 (rpartition_Some "/" (sd ++ ["/"%char] ++ n) sd n)).
Qed.

Lemma basename_child (sd n : text) :
  "/"%char ∉ n → PosixPath.basename (sd ++ "/" ++ n) = n.
Proof.
  intros Hn. unfold PosixPath.basename, from. rewrite rfind_child by done.
  replace (Z.to_nat (Z.of_nat (length sd) + 1)) with (length (sd ++ ["/"%char]))
    by (rewrite length_app; simpl; lia).
  lits. rewrite (assoc_L (++)). by rewrite drop_app_length.
Qed.

Lemma rstrip_drop P (s : text) c : P c = true → rstrip P (s ++ [c]) = rstrip P s.
Proof. intros Hc. unfold rstrip. rewrite rev_unit. simpl. by rewrite Hc. Qed.

Lemma dirname_child (sd n : text) :
  sd ≠ [] → last sd ≠ Some "/"%char → "/"%char ∉ n →
  PosixPath.dirname (sd ++ "/" ++ n) = sd.
Proof.
  intros Hsd Hlast Hn. unfold PosixPath.dirname, upto. rewrite rfind_child by done.
  replace (Z.to_nat (Z.of_nat (length sd) + 1)) with (length (sd ++ ["/"%char]))
    by (rewrite length_app; simpl; lia).
  lits. rewrite (assoc_L (++)), take_app_length.
  rewrite bool_decide_false by by destruct sd.
  assert (forallb (λ c, bool_decide (c = "/"%char)) (sd ++ ["/"%char]) = false) as ->.
  { apply not_true_is_false. intros Hall. rewrite forallb_forall in Hall.
    destruct (last sd) as [c|] eqn:Hc; [|by apply last_None in Hc].
    assert (bool_decide (c = "/"%char) = true) as Heq.
    { apply Hall. apply in_or_app. left. apply list_elem_of_In.
      apply last_Some in Hc as [front ->]. set_solver. }
    apply bool_decide_eq_true in Heq. by subst. }
  cbn [negb andb]. rewrite rstrip_drop by done.
  apply rstrip_id. intros c Hc. apply not_true_is_false.
  intros Hslash%in_chars_one. by subst.
Qed.

(** Retrieval of a stored file by the 'path' an upload answered with. *)
Lemma download_serves (field n : text) w d content mtime :
  let upload_path := strip_chars "/" field in
  let sd := if bool_decide (upload_path = []) then UPLOAD_FOLDER
            else UPLOAD_FOLDER ++ "/" ++ upload_path in
  is_name n = true →
  contains ".." (relative_path upload_path n) = false →
  locate (files w) sd = Some d →
  is_dir (files w) d = true →
  files w !! (n :: d) = Some (File content mtime) →
  ∃ w', download_file (relative_path upload_path n) w = (Ret (Served content), w') ∧
        files w' = files w.
Proof.
  intros upload_path sd Hn Hdots Hd Hdir Hfile.
  destruct (save_directory_shape field) as [Hsd_ne Hsd_last].
  fold upload_path sd in Hsd_ne, Hsd_last.
  pose proof (is_name_no_slash n Hn) as Hslash.
  pose proof (is_name_head n Hn) as Hhead.
  set (rel := relative_path upload_path n) in *.
  assert (head rel ≠ Some "/"%char) as Hrel.
  { unfold rel, relative_path. case_bool_decide as Hup; [done|]. cbn [negb].
    pose proof (strip_slash_head field) as Hh. fold upload_path in Hh.
    by destruct upload_path. }
  assert (PosixPath.join UPLOAD_FOLDER rel = sd ++ "/" ++ n) as Hpath.
  { rewrite join_root by done. unfold rel, relative_path, sd.
    case_bool_decide; [done|]. cbn [negb]. by rewrite <- !(assoc_L (++)). }
  assert (stat (files w) (sd ++ "/" ++ n) = Some (File content mtime)) as Hstat.
  { unfold stat. rewrite (locate_child _ sd n d) by done. done. }
  unfold download_file, try_except. rewrite Hdots.
  destruct (startswith "/" rel) eqn:Hstart.
  { lits. by apply startswith_head in Hstart. }
  cbn [orb]. rewrite run_path_exists, Hpath, Hstat, bool_decide_true by eauto.
  cbn [negb]. rewrite dirname_child, basename_child by done.
  unfold send_from_directory, safe_join.
  destruct (startswith "/" n) eqn:Hn1.
  { lits. by apply startswith_head in Hn1. }
  rewrite bool_decide_false.
  2: { intros ->. by vm_compute in Hn. }
  destruct (startswith "../" n) eqn:Hn2.
  { apply startswith_spec in Hn2 as [rest ->]. lits. set_solver. }
  cbn [orb]. rewrite join_plain by done.
  rewrite run_path_isfile. cbn [files logged]. rewrite Hstat. cbn [negb].
  rewrite run_read_file. cbn [files logged]. rewrite Hstat. eauto.
Qed.

End placing.

(** Closed facts are settled by evaluation, decidable ones through [bool_decide]. *)
Ltac evaluate :=
  first [ by vm_compute
        | match goal with |- ?P => apply (bool_decide_unpack P); by vm_compute end ].

(** ** Upload: custom filenames *)

(** C6, as amended.  For an upload whose custom filename is not empty once
    the white space at its ends is stripped, and whose original filename
    carries an allowed extension: when the directory of the upload is there
    and holds nothing under that name, the file is stored under the
    sanitized custom name followed by "." and the lowercased original
    extension, and that is the filename of the answer. *)
Theorem custom_name_upload (request : upload_request) (w w1 : world)
    (stem ext : text) content sd d :
  req_file request = Some (stem ++ "." ++ ext, content) →
  "."%char ∉ ext →
  lower ext ∈ ALLOWED_EXTENSIONS →
  let custom := strip_ws (form_get (req_filename request)) in
  let upload_path := strip_chars "/" (form_get (req_path request)) in
  let target := Werkzeug.secure_filename custom ++ "." ++ lower ext in
  custom ≠ [] →
  resolve_directory upload_path w = (Ret sd, w1) →
  locate (files w1) sd = Some d →
  is_dir (files w1) d = true →
  files w1 !! (target :: d) = None →
  ∃ mtime upload_time w',
    upload_file request w
    = (Ret (Uploaded target (relative_path upload_path target) (file_url upload_path target)
              (length content) upload_time), w') ∧
    files w' !! (target :: d) = Some (File content mtime).
Proof.
  intros Hfile Hdot Hin custom upload_path target Hcustom Hdir Hd Hisdir Hfree.
  assert (resolve_filename (stem ++ "." ++ ext) (form_get (req_filename request)) = target)
    as Hwanted.
  { unfold resolve_filename. fold custom. rewrite bool_decide_false by done.
    by rewrite rsplit1_extension. }
  destruct (upload_stores request w (stem ++ "." ++ ext) content sd w1 d)
    as (mtime & t & w' & Hrun & Hstored & _); try done.
  - by destruct stem.
  - apply allowed_file_spec. by exists stem, ext.
  - rewrite Hwanted, Hfree, bool_decide_false by by intros [? ?].
    unfold is_dir. by rewrite Hfree.
  - rewrite Hwanted, Hfree, bool_decide_false in Hrun, Hstored by by intros [? ?].
    eauto.
Qed.

Lemma custom_name_upload_witness :
  ∃ mtime upload_time w',
    upload_file (upload_to "x.pdf" "" "report" [Byte.x41]) (booted ticking)
    = (Ret (Uploaded "report.pdf" "report.pdf" "http://localhost:5000/files/report.pdf"
              1 upload_time), w') ∧
    files w' !! spot ["report.pdf"; "files"; "app"] = Some (File [Byte.x41] mtime).
Proof.
  apply (custom_name_upload (upload_to "x.pdf" "" "report" [Byte.x41]) (booted ticking)
           (booted ticking) "x" "pdf" [Byte.x41] "/app/files" (spot ["files"; "app"]));
    evaluate.
Defined.

(** C6 as stated fails for a custom filename of white space, which is
    stripped to nothing, so that the original name is used; and when the name
    is taken, where the stored filename carries a timestamp. *)
Lemma blank_or_taken_custom_name :
  let blank := upload_to "x.pdf" "" " " [Byte.x41] in
  let again := upload_to "x.pdf" "" "report" [Byte.x41] in
  (" " : text) ≠ [] ∧
  Werkzeug.secure_filename " " ++ "." ++ lower "pdf" = ".pdf" ∧
  (upload_file blank (booted ticking)).1
    = Ret (Uploaded "x.pdf" "x.pdf" "http://localhost:5000/files/x.pdf" 1 (ticking 0)) ∧
  Werkzeug.secure_filename "report" ++ "." ++ lower "pdf" = "report.pdf" ∧
  (after (upload_file again) (upload_file again) (booted ticking)).1
    = Ret (Uploaded "report_20250101_000001.pdf" "report_20250101_000001.pdf"
             "http://localhost:5000/files/report_20250101_000001.pdf" 1 (ticking 2)).
Proof. by vm_compute. Qed.

(** ** Upload: the case of the extension *)

(** C10.  The extension check lowercases the extension before looking it up
    in the allowed set.  Without a custom filename the file is stored under
    the sanitized original filename, which ends with the extension in its
    original case.  So "X.PDF" is accepted and stored as "X.PDF", and with
    the custom name "r" as "r.pdf". *)
Theorem extension_case :
  (∀ stem ext : text,
     "."%char ∉ ext →
     allowed_file (stem ++ "." ++ ext) = bool_decide (lower ext ∈ ALLOWED_EXTENSIONS)) ∧
  (∀ (request : upload_request) (w w1 : world) (stem ext : text) content sd d,
     req_file request = Some (stem ++ "." ++ ext, content) →
     "."%char ∉ ext →
     lower ext ∈ ALLOWED_EXTENSIONS →
     strip_ws (form_get (req_filename request)) = [] →
     let upload_path := strip_chars "/" (form_get (req_path request)) in
     let target := Werkzeug.secure_filename (stem ++ "." ++ ext) in
     resolve_directory upload_path w = (Ret sd, w1) →
     locate (files w1) sd = Some d →
     is_dir (files w1) d = true →
     files w1 !! (target :: d) = None →
     (∃ front, target = front ++ ext) ∧
     ∃ mtime upload_time w',
       upload_file request w
       = (Ret (Uploaded target (relative_path upload_path target)
                 (file_url upload_path target) (length content) upload_time), w') ∧
       files w' !! (target :: d) = Some (File content mtime)) ∧
  (upload_file (upload_plain "X.PDF" [Byte.x41]) (booted ticking)).1
    = Ret (Uploaded "X.PDF" "X.PDF" "http://localhost:5000/files/X.PDF" 1 (ticking 0)) ∧
  (upload_file (upload_to "X.PDF" "" "r" [Byte.x41]) (booted ticking)).1
    = Ret (Uploaded "r.pdf" "r.pdf" "http://localhost:5000/files/r.pdf" 1 (ticking 0)).
Proof.
  split; [|split; [|by vm_compute]].
  - intros stem ext Hdot. unfold allowed_file.
    assert (contains "." (stem ++ "." ++ ext) = true) as ->.
    { lits. apply contains_char. set_solver. }
    by rewrite rsplit1_extension.
  - intros request w w1 stem ext content sd d Hfile Hdot Hin Hcustom upload_path target
      Hdir Hd Hisdir Hfree.
    destruct (allowed_extension_alpha ext Hin) as [Hne Halpha]. split.
    { by apply secure_filename_end. }
    assert (resolve_filename (stem ++ "." ++ ext) (form_get (req_filename request)) = target)
      as Hwanted.
    { unfold resolve_filename. by rewrite Hcustom, bool_decide_true. }
    destruct (upload_stores request w (stem ++ "." ++ ext) content sd w1 d)
      as (mtime & t & w' & Hrun & Hstored & _); try done.
    + by destruct stem.
    + apply allowed_file_spec. by exists stem, ext.
    + rewrite Hwanted, Hfree, bool_decide_false by by intros [? ?].
      unfold is_dir. by rewrite Hfree.
    + rewrite Hwanted, Hfree, bool_decide_false in Hrun, Hstored by by intros [? ?].
      eauto.
Qed.

Lemma extension_case_witness :
  allowed_file "X.PDF" = true ∧
  (∃ front : text, Werkzeug.secure_filename "X.PDF" = front ++ "PDF") ∧
  ∃ mtime upload_time w',
    upload_file (upload_plain "X.PDF" [Byte.x41]) (booted ticking)
    = (Ret (Uploaded "X.PDF" "X.PDF" "http://localhost:5000/files/X.PDF" 1 upload_time), w') ∧
    files w' !! spot ["X.PDF"; "files"; "app"] = Some (File [Byte.x41] mtime).
Proof.
  destruct extension_case as (Hcheck & Hstore & _). split.
  - etrans; [apply (Hcheck "X" "PDF") | ]; evaluate.
  - apply (Hstore (upload_plain "X.PDF" [Byte.x41]) (booted ticking) (booted ticking)
             "X" "PDF" [Byte.x41] "/app/files" (spot ["files"; "app"])); evaluate.
Defined.

(** ** Upload: names that are taken *)
Section collisions.
Implicit Types (w : world) (sd : text) (d : location).

Lemma cons_ne (n : text) d : n :: d ≠ d.
Proof. intros H. apply (f_equal length) in H. simpl in H. lia. Qed.

Lemma resolve_directory_again (field : text) w sd w1 d w' :
  let upload_path := strip_chars "/" field in
  resolve_directory upload_path w = (Ret sd, w1) →
  locate (files w1) sd = Some d →
  is_dir (files w1) d = true →
  (∀ l, is_dir (files w') l = is_dir (files w1) l) →
  ∃ w1', resolve_directory upload_path w' = (Ret sd, w1') ∧
         files w1' = files w' ∧ wall w1' = wall w'.
Proof.
  intros upload_path Hdir Hd Hisdir Hsame.
  destruct (resolve_directory_run _ _ _ _ Hdir) as [Hsd _]. fold upload_path in Hsd.
  unfold resolve_directory in *. destruct (bool_decide (upload_path = [])); cbn [negb] in *.
  - injection Hdir as <- <-. by exists w'.
  - rewrite create_directory_eq, run_create_directory.
    unfold upload_path, strip_chars. rewrite strip_idemp. fold (strip_chars "/" field).
    fold upload_path. rewrite <- Hsd.
    unfold locate in Hd. destruct (bool_decide (sd = [])); [done|].
    rewrite (makedirs_walk_existing _ _ _ _ d).
    + by eexists.
    + by rewrite (walk_same_dirs (files w1)).
    + by rewrite Hsame.
Qed.

Lemma locate_same_dirs fs fs' (p : text) :
  (∀ l, is_dir fs' l = is_dir fs l) → locate fs' p = locate fs p.
Proof. intros H. unfold locate. by rewrite (walk_same_dirs fs fs'). Qed.

(** C3, as amended.  When the name an upload asks for is taken in its
    directory, the upload is stored under that name with "_" and the
    timestamp YYYYMMDD_HHMMSS inserted between base name and extension (unless
    a directory has that name), and what was there under the name asked for is
    left alone.  Uploading the same filename twice to the same path, the
    first time to a free name, gives two stored files under different
    names; each is served by the retrieval endpoint under the path its upload
    answered with, provided that path does not contain "..". *)
Theorem upload_collision :
  (∀ (request : upload_request) w filename content sd w1 d there,
     req_file request = Some (filename, content) →
     filename ≠ [] →
     allowed_file filename = true →
     let upload_path := strip_chars "/" (form_get (req_path request)) in
     let wanted := resolve_filename filename (form_get (req_filename request)) in
     let stored := stamped wanted (wall w) in
     resolve_directory upload_path w = (Ret sd, w1) →
     locate (files w1) sd = Some d →
     is_dir (files w1) d = true →
     files w1 !! (wanted :: d) = Some there →
     is_dir (files w1) (stored :: d) = false →
     (∃ name ext,
        PosixPath.splitext wanted = (name, ext) ∧ name ++ ext = wanted ∧
        stored = name ++ "_" ++ strftime_stamp (wall w) ++ ext) ∧
     ∃ mtime upload_time w',
       upload_file request w
       = (Ret (Uploaded stored (relative_path upload_path stored)
                 (file_url upload_path stored) (length content) upload_time), w') ∧
       files w' !! (stored :: d) = Some (File content mtime) ∧
       files w' !! (wanted :: d) = Some there) ∧
  (∀ (filename : text) (path custom : option text) (first second : list byte) w sd w1 d,
     let request content := UploadRequest (Some (filename, content)) path custom in
     let upload_path := strip_chars "/" (form_get path) in
     let wanted := resolve_filename filename (form_get custom) in
     let w' := (upload_file (request first) w).2 in
     let renamed := stamped wanted (wall w') in
     filename ≠ [] →
     allowed_file filename = true →
     resolve_directory upload_path w = (Ret sd, w1) →
     locate (files w1) sd = Some d →
     is_dir (files w1) d = true →
     files w1 !! (wanted :: d) = None →
     is_dir (files w1) (renamed :: d) = false →
     ∃ t1 t2 m1 m2 w'',
       upload_file (request first) w
       = (Ret (Uploaded wanted (relative_path upload_path wanted)
                 (file_url upload_path wanted) (length first) t1), w') ∧
       upload_file (request second) w'
       = (Ret (Uploaded renamed (relative_path upload_path renamed)
                 (file_url upload_path renamed) (length second) t2), w'') ∧
       renamed ≠ wanted ∧
       files w'' !! (wanted :: d) = Some (File first m1) ∧
       files w'' !! (renamed :: d) = Some (File second m2) ∧
       (contains ".." (relative_path upload_path wanted) = false →
        ∃ w3, download_file (relative_path upload_path wanted) w'' = (Ret (Served first), w3)) ∧
       (contains ".." (relative_path upload_path renamed) = false →
        ∃ w3, download_file (relative_path upload_path renamed) w''
              = (Ret (Served second), w3))).
Proof.
  split.
  - intros request w filename content sd w1 d there Hfile Hne Hallowed upload_path wanted
      stored Hdir Hd Hisdir Hthere Hfree. split.
    { unfold stored, stamped. pose proof (splitext_app wanted) as Happ.
      destruct (PosixPath.splitext wanted) as [name ext]. by exists name, ext. }
    destruct (upload_stores request w filename content sd w1 d)
      as (mtime & t & w' & Hrun & Hstored & Hframe & _); try done.
    { fold wanted. rewrite Hthere, bool_decide_true by eauto. done. }
    fold wanted upload_path in Hrun, Hstored, Hframe.
    rewrite Hthere, bool_decide_true in Hrun, Hstored, Hframe by eauto.
    exists mtime, t, w'. split; [done|]. split; [done|].
    rewrite Hframe; [done | | apply cons_ne].
    intros [= H]. symmetry in H. by apply stamped_differs in H.
  - intros filename path custom first second w sd w1 d request upload_path wanted w' renamed
      Hne Hallowed Hdir Hd Hisdir Hfree Hrenamed.
    destruct (upload_stores (request first) w filename first sd w1 d)
      as (m1 & t1 & w0 & Hrun1 & Hstored1 & Hframe1 & Hdirs1); try done.
    { simpl. fold wanted. rewrite Hfree, bool_decide_false by by intros [? ?].
      unfold is_dir. by rewrite Hfree. }
    simpl in Hrun1, Hstored1, Hframe1. fold wanted upload_path in Hrun1, Hstored1, Hframe1.
    rewrite Hfree, bool_decide_false in Hrun1, Hstored1, Hframe1 by by intros [? ?].
    assert (w' = w0) as Hw' by (unfold w'; by rewrite Hrun1).
    clearbody w'. subst w0.
    destruct (resolve_directory_again (form_get path) w sd w1 d w')
      as (w1' & Hdir' & Hfiles' & Hwall'); try done.
    fold upload_path in Hdir'.
    destruct (upload_stores (request second) w' filename second sd w1' d)
      as (m2 & t2 & w'' & Hrun2 & Hstored2 & Hframe2 & Hdirs2); try done.
    { rewrite Hfiles'. by rewrite (locate_same_dirs (files w1)). }
    { by rewrite Hfiles', Hdirs1. }
    { simpl. fold wanted. rewrite Hfiles', Hstored1, bool_decide_true by eauto.
      fold renamed. by rewrite Hdirs1. }
    simpl in Hrun2, Hstored2, Hframe2. fold wanted upload_path in Hrun2, Hstored2, Hframe2.
    rewrite Hfiles', Hstored1, bool_decide_true in Hrun2, Hstored2, Hframe2 by eauto.
    fold renamed in Hrun2, Hstored2, Hframe2.
    assert (renamed ≠ wanted) as Hdiff by apply stamped_differs.
    assert (files w'' !! (wanted :: d) = Some (File first m1)) as Hfirst.
    { rewrite Hframe2; [done | congruence | apply cons_ne]. }
    destruct (resolve_directory_run _ _ _ _ Hdir) as [Hsd _]. fold upload_path in Hsd.
    assert (locate (files w'') sd = Some d) as Hd''.
    { rewrite (locate_same_dirs (files w1')) by done. rewrite Hfiles'.
      by rewrite (locate_same_dirs (files w1)). }
    assert (is_dir (files w'') d = true) as Hisdir''.
    { by rewrite Hdirs2, Hfiles', Hdirs1. }
    assert (is_name wanted = true) as Hwanted by by apply resolve_filename_name.
    assert (is_name renamed = true) as Hname2.
    { apply is_name_stamped. by apply is_name_no_slash. }
    rewrite Hsd in Hd''.
    exists t1, t2, m1, m2, w''. repeat split; try done.
    + intros Hdots.
      destruct (download_serves (form_get path) wanted w'' d first m1) as (w3 & H3 & _);
        try done. by exists w3.
    + intros Hdots.
      destruct (download_serves (form_get path) renamed w'' d second m2) as (w3 & H3 & _);
        try done. by exists w3.
Qed.

Lemma upload_collision_witness :
  let filename : text := "x.pdf" in
  let w := booted ticking in
  let sd : text := "/app/files" in
  let d := spot ["files"; "app"] in
  let request content := UploadRequest (Some (filename, content)) None None in
  let wanted := resolve_filename filename (form_get None) in
  let w' := (upload_file (request [Byte.x41]) w).2 in
  let renamed := stamped wanted (wall w') in
  (∃ mtime upload_time w'',
     upload_file (request [Byte.x42]) w'
     = (Ret (Uploaded renamed (relative_path "" renamed) (file_url "" renamed) 1 upload_time),
        w'') ∧
     files w'' !! (renamed :: d) = Some (File [Byte.x42] mtime) ∧
     files w'' !! (wanted :: d) = Some (File [Byte.x41] (ticking 0))) ∧
  (∃ w'' w3 w4 t2,
     upload_file (request [Byte.x42]) w'
     = (Ret (Uploaded renamed (relative_path "" renamed) (file_url "" renamed) 1 t2), w'') ∧
     renamed ≠ wanted ∧
     download_file (relative_path "" wanted) w'' = (Ret (Served [Byte.x41]), w3) ∧
     download_file (relative_path "" renamed) w'' = (Ret (Served [Byte.x42]), w4)).
Proof.
  intros filename w sd d request wanted w' renamed.
  destruct upload_collision as [Htaken Htwice]. split.
  - destruct (Htaken (request [Byte.x42]) w' filename [Byte.x42] sd w' d
                (File [Byte.x41] (ticking 0))) as [_ H]; [evaluate..|].
    exact H.
  - destruct (Htwice filename None None [Byte.x41] [Byte.x42] w sd w d)
      as (t1 & t2 & m1 & m2 & w'' & _ & Hsecond & Hdiff & _ & _ & Hget1 & Hget2);
      [evaluate..|].
    destruct Hget1 as [w3 Hget1]; [evaluate|].
    destruct Hget2 as [w4 Hget2]; [evaluate|].
    exists w'', w3, w4, t2. split; [exact Hsecond|]. split; [exact Hdiff|].
    split; [exact Hget1 | exact Hget2].
Defined.

(** C3 as stated fails for a sanitized name with two dots in a row, which is
    stored (twice, under two names) and then refused by the retrieval
    endpoint; and for two uploads within one second to a name that is already
    taken, which get the same stamped name, so that the second replaces the
    first. *)
Lemma taken_name_edge_cases :
  let dotted := upload_plain "a..txt" [Byte.x41] in
  let twice := after (upload_file dotted) (upload_file dotted) in
  let upload b := upload_file (upload_plain "x.pdf" [b]) in
  let thrice m := after (upload Byte.x41) (after (upload Byte.x42) (after (upload Byte.x43) m)) in
  (upload_file dotted (booted ticking)).1
    = Ret (Uploaded "a..txt" "a..txt" "http://localhost:5000/files/a..txt" 1 (ticking 0)) ∧
  (twice (booted ticking)).1
    = Ret (Uploaded "a._20250101_000001.txt" "a._20250101_000001.txt"
             "http://localhost:5000/files/a._20250101_000001.txt" 1 (ticking 2)) ∧
  (after (upload_file dotted) (after (upload_file dotted) (download_file "a..txt"))
     (booted ticking)).1
    = Ret (Failure INVALID_PATH 400) ∧
  (after (upload Byte.x41) (upload Byte.x42) (booted frozen)).1
    = Ret (Uploaded "x_20250101_000000.pdf" "x_20250101_000000.pdf"
             "http://localhost:5000/files/x_20250101_000000.pdf" 1 midnight) ∧
  (after (upload Byte.x41) (after (upload Byte.x42) (upload Byte.x43)) (booted frozen)).1
    = Ret (Uploaded "x_20250101_000000.pdf" "x_20250101_000000.pdf"
             "http://localhost:5000/files/x_20250101_000000.pdf" 1 midnight) ∧
  (thrice (download_file "x_20250101_000000.pdf") (booted frozen)).1
    = Ret (Served [Byte.x43]) ∧
  (thrice (list_files "") (booted frozen)).1
    = Ret (Listing ""
             [Item "x_20250101_000000.pdf" file 1 midnight; Item "x.pdf" file 1 midnight] 2).
Proof. by vm_compute. Qed.

End collisions.

(** ** Paths with ".." *)

(** C1 fails on the code.  A path ".." given to create-folder, upload or list
    is joined onto the storage root as it is, and the operation acts on the
    parent of the storage root: create-folder makes /app/outside, upload
    writes /app/outside/x.pdf, and list shows the entries of /app. *)
Theorem dot_dot_leaves_storage_root :
  let w := booted ticking in
  let made := create_folder (make_folder "../outside") w in
  let sent := upload_file (upload_to "x.pdf" "../outside" "" [Byte.x41]) w in
  made.1 = Ret (FolderCreated "../outside" "/app/files/../outside" (ticking 0)) ∧
  locate (files made.2) "/app/files/../outside" = Some (spot ["outside"; "app"]) ∧
  is_dir (files w) (spot ["outside"; "app"]) = false ∧
  is_dir (files made.2) (spot ["outside"; "app"]) = true ∧
  ¬ inside_storage (spot ["outside"; "app"]) ∧
  sent.1 = Ret (Uploaded "x.pdf" "../outside/x.pdf"
                  "http://localhost:5000/files/../outside/x.pdf" 1 (ticking 0)) ∧
  files sent.2 !! spot ["x.pdf"; "outside"; "app"] = Some (File [Byte.x41] (ticking 0)) ∧
  ¬ inside_storage (spot ["x.pdf"; "outside"; "app"]) ∧
  (list_files ".." w).1 = Ret (Listing ".." [Item "files" directory 0 midnight] 1) ∧
  locate (files w) (PosixPath.join UPLOAD_FOLDER (strip_chars "/" ".."))
    = Some (spot ["app"]) ∧
  ¬ inside_storage (spot ["app"]).
Proof.
  repeat split; try by vm_compute.
  all: unfold inside_storage; apply (bool_decide_eq_false_1 (_ `suffix_of` _)); by vm_compute.
Qed.

(** ** Handlers that only look *)
Section looking.
Context {A B : Type}.
Implicit Types (w : world) (m : M A) (k : A → M B).

Lemma observed_refl w : observed w w.
Proof. repeat split. by exists []. Qed.

Lemma observed_trans w1 w2 w3 : observed w1 w2 → observed w2 w3 → observed w1 w3.
Proof.
  intros (Hf & Hc & Ht & calls & Hcalls) (Hf' & Hc' & Ht' & calls' & Hcalls').
  repeat split; [congruence..|]. exists (calls' ++ calls).
  by rewrite Hcalls', Hcalls, (assoc_L (++)).
Qed.

Lemma observed_logged c w : observed w (logged c w).
Proof. repeat split. by exists [c]. Qed.

Lemma looks_only_ret (a : A) : looks_only (ret a).
Proof. intros w. apply observed_refl. Qed.

Lemma looks_only_raise e : looks_only (raise e : M A).
Proof. intros w. apply observed_refl. Qed.

Lemma looks_only_bind m k : looks_only m → (∀ a, looks_only (k a)) → looks_only (bind m k).
Proof.
  intros Hm Hk w. unfold bind. specialize (Hm w).
  destruct (m w) as [[a|e] w1]; [|done].
  eapply observed_trans; [done|]. apply Hk.
Qed.

Lemma looks_only_try m (handler : exn → M A) :
  looks_only m → (∀ e, looks_only (handler e)) → looks_only (try_except m handler).
Proof.
  intros Hm Hh w. unfold try_except. specialize (Hm w).
  destruct (m w) as [[a|e] w1]; [done|].
  eapply observed_trans; [done|]. apply Hh.
Qed.

End looking.

Lemma looks_only_for_each {A B} (f : A → M B) (xs : list A) :
  (∀ x, looks_only (f x)) → looks_only (for_each f xs).
Proof.
  intros Hf. induction xs as [|x xs IH]; simpl.
  - intros w. apply observed_refl.
  - apply looks_only_bind; [apply Hf|]. intros y.
    apply looks_only_bind; [apply IH|]. intros ys w. apply observed_refl.
Qed.

Section looking_calls.
Implicit Types (p : text).

Lemma looks_only_log c : looks_only (log c).
Proof. intros w. apply observed_logged. Qed.

Lemma looks_only_get_files : looks_only get_files.
Proof. intros w. apply observed_refl. Qed.

Lemma looks_only_path_exists p : looks_only (path_exists p).
Proof. intros w. apply observed_logged. Qed.

Lemma looks_only_path_isdir p : looks_only (path_isdir p).
Proof. intros w. apply observed_logged. Qed.

Lemma looks_only_path_isfile p : looks_only (path_isfile p).
Proof. intros w. apply observed_logged. Qed.

Lemma looks_only_getsize p : looks_only (getsize p).
Proof.
  intros w. unfold getsize, bind, log, get_files. simpl.
  destruct (stat (files w) p) as [[]|]; apply observed_logged.
Qed.

Lemma looks_only_getmtime p : looks_only (getmtime p).
Proof.
  intros w. unfold getmtime, bind, log, get_files. simpl.
  destruct (stat (files w) p) as [[]|]; apply observed_logged.
Qed.

Lemma looks_only_read_file p : looks_only (read_file p).
Proof.
  intros w. unfold read_file, bind, log, get_files. simpl.
  destruct (stat (files w) p) as [[]|]; apply observed_logged.
Qed.

Lemma looks_only_listdir p : looks_only (listdir p).
Proof.
  intros w. unfold listdir, bind, log, get_files. simpl.
  destruct (locate (files w) p) as [l|]; [|apply observed_logged].
  destruct (files w !! l) as [[]|]; apply observed_logged.
Qed.

Lemma looks_only_send_from_directory directory p : looks_only (send_from_directory directory p).
Proof.
  unfold send_from_directory. destruct (safe_join directory p); [|apply looks_only_raise].
  apply looks_only_bind; [apply looks_only_path_isfile|]. intros regular.
  destruct (negb regular); [apply looks_only_raise|].
  apply looks_only_bind; [apply looks_only_read_file|]. intros. apply looks_only_ret.
Qed.

(** X1.  The retrieval and the list endpoint only look: whatever the path
    and whatever the answer, the files, the clock and the number of clock
    readings are as before, and the trace of system calls has only grown. *)
Theorem readers_only_look (path : text) (w : world) :
  observed w (download_file path w).2 ∧ observed w (list_files path w).2.
Proof.
  split.
  - revert w. unfold download_file. apply looks_only_try; [|intros; apply looks_only_ret].
    destruct (_ || _); [apply looks_only_ret|].
    apply looks_only_bind; [apply looks_only_path_exists|]. intros found.
    destruct (negb found); [apply looks_only_ret|]. apply looks_only_send_from_directory.
  - revert w. unfold list_files. apply looks_only_try; [|intros; apply looks_only_ret].
    apply looks_only_bind; [apply looks_only_path_exists|]. intros found.
    destruct (negb found); [apply looks_only_ret|].
    apply looks_only_bind; [apply looks_only_listdir|]. intros names.
    apply looks_only_bind; [|intros; apply looks_only_ret].
    apply looks_only_for_each. intros item.
    apply looks_only_bind; [apply looks_only_path_isdir|]. intros is_dir.
    apply looks_only_bind.
    { destruct is_dir; [apply looks_only_ret | apply looks_only_getsize]. }
    intros size. apply looks_only_bind; [apply looks_only_getmtime|].
    intros. apply looks_only_ret.
Qed.

End looking_calls.

(** ** Names on the disk stay names *)
Section staying_named.
Implicit Types (fs : gmap (list text) node) (cur l d : location) (segs : list text).

Lemma split_no_sep sep (s piece : text) : piece ∈ split sep s → sep ∉ piece.
Proof.
  revert piece. induction s as [|c s IH]; intros piece; simpl.
  - intros H. apply elem_of_cons in H as [-> | H]; [apply not_elem_of_nil|].
    by apply elem_of_nil in H.
  - case_bool_decide as Hc.
    + intros H. apply elem_of_cons in H as [-> | H]; [apply not_elem_of_nil | by apply IH].
    + pose proof (split_nonempty sep s) as Hne.
      destruct (split sep s) as [|h t]; [done|].
      intros H. apply elem_of_cons in H as [-> | H].
      * apply not_elem_of_cons. split; [congruence|]. apply IH. set_solver.
      * apply IH. set_solver.
Qed.

Lemma split_pieces sep (s : text) : Forall (λ piece, sep ∉ piece) (split sep s).
Proof. apply Forall_forall. intros piece. apply split_no_sep. Qed.

Lemma step_named cur (s : text) :
  Forall (λ n, is_name n = true) cur → "/"%char ∉ s →
  Forall (λ n, is_name n = true) (step cur s).
Proof.
  intros Hcur Hs. unfold step.
  destruct (stays s) eqn:Hstays; [done|].
  destruct (goes_up s) eqn:Hup.
  - destruct cur; [done|]. by apply Forall_cons in Hcur as [_ ?].
  - constructor; [|done]. unfold is_name. rewrite Hstays, Hup.
    by rewrite bool_decide_false.
Qed.

Lemma well_named_touch t d fs : well_named fs → well_named (touch t d fs).
Proof.
  intros Hfs. unfold touch. destruct (fs !! d) as [[t'|]|] eqn:Hd; [|done..].
  apply map_Forall_insert_2; [|done]. by apply (Hfs d (Dir t')).
Qed.

Lemma well_named_mkdir t l fs :
  well_named fs → Forall (λ n, is_name n = true) l → well_named (mkdir t l fs).
Proof.
  intros Hfs Hl. unfold mkdir. apply map_Forall_insert_2; [done|].
  by apply well_named_touch.
Qed.

Lemma makedirs_walk_well_named t fs cur segs fs' :
  well_named fs →
  Forall (λ n, is_name n = true) cur →
  Forall (λ s : text, "/"%char ∉ s) segs →
  makedirs_walk t fs cur segs = inr fs' →
  well_named fs'.
Proof.
  revert fs cur. induction segs as [|s segs IH]; intros fs cur Hfs Hcur Hsegs; simpl.
  - destruct (is_dir fs cur); [|done]. by intros [= <-].
  - apply Forall_cons in Hsegs as [Hs Hsegs].
    pose proof (step_named cur s Hcur Hs) as Hstep. unfold step in Hstep.
    destruct (is_dir fs cur); [|done].
    destruct (stays s); [by apply IH|].
    destruct (goes_up s); [by apply IH|].
    destruct (fs !! (s :: cur)); [by apply IH|].
    apply IH; [|done..]. by apply well_named_mkdir.
Qed.

Lemma resolve_directory_well_named (field : text) w sd w1 :
  resolve_directory (strip_chars "/" field) w = (Ret sd, w1) →
  well_named (files w) → well_named (files w1).
Proof.
  unfold resolve_directory. destruct (bool_decide (strip_chars "/" field = [])); cbn [negb].
  - by intros [= <- <-].
  - rewrite create_directory_eq, run_create_directory.
    destruct (makedirs_walk _ _ _ _) as [[e fe]|fs'] eqn:Hrun; [done|].
    intros [= <- <-] Hfs. cbn [files with_files].
    eapply makedirs_walk_well_named; [done | constructor | apply split_pieces | done].
Qed.

Lemma well_named_written fs fs' l d :
  well_named fs →
  Forall (λ n, is_name n = true) l →
  is_dir fs d = true →
  (∀ k, k ≠ l → k ≠ d → fs' !! k = fs !! k) →
  well_named fs'.
Proof.
  intros Hfs Hl Hd Hframe k v Hk.
  destruct (decide (k = l)) as [->|Hne]; [done|].
  destruct (decide (k = d)) as [->|Hne'].
  - unfold is_dir in Hd. destruct (fs !! d) as [nd|] eqn:Hnd; [|done]. by apply (Hfs d nd).
  - rewrite Hframe in Hk by done. by apply (Hfs k v).
Qed.

Lemma is_dir_named fs d :
  well_named fs → is_dir fs d = true → Forall (λ n, is_name n = true) d.
Proof.
  intros Hfs Hd. unfold is_dir in Hd.
  destruct (fs !! d) as [nd|] eqn:Hnd; [|done]. by apply (Hfs d nd).
Qed.

End staying_named.

(** ** What a listing holds *)
Section listed.
Implicit Types (fs : gmap (list text) node) (d : location).

Lemma omap_all {A B} (f : A → option B) (g : A → B) (xs : list A) :
  (∀ x, x ∈ xs → f x = Some (g x)) → omap f xs = g <$> xs.
Proof.
  induction xs as [|x xs IH]; intros H; [done|]. cbn.
  rewrite H by set_solver. cbn. rewrite IH; [done|]. intros y Hy. apply H. set_solver.
Qed.

Lemma elem_of_entries fs d it :
  it ∈ entries fs d ↔ ∃ nd, fs !! (item_name it :: d) = Some nd ∧ it = entry_of (item_name it) nd.
Proof.
  unfold entries. rewrite list_elem_of_omap. split.
  - intros (n & _ & Hn). destruct (fs !! (n :: d)) as [nd|] eqn:Hnd; [|done].
    injection Hn as <-. assert (item_name (entry_of n nd) = n) as -> by by destruct nd.
    eauto.
  - intros (nd & Hnd & ->). exists (item_name it). split.
    + apply elem_of_children. eauto.
    + by rewrite Hnd.
Qed.

(** The run of list_files on a directory. *)
Lemma list_files_run (folder_path : text) w d mtime :
  let target := PosixPath.join UPLOAD_FOLDER (strip_chars "/" folder_path) in
  well_named (files w) →
  locate (files w) target = Some d →
  files w !! d = Some (Dir mtime) →
  ∃ w',
    list_files folder_path w
    = (Ret (Listing folder_path (entries (files w) d) (length (entries (files w) d))), w').
Proof.
  intros target Hnames Hl Hd.
  assert (is_dir (files w) d = true) as Hdir by (unfold is_dir; by rewrite Hd).
  set (fs := files w) in *.
  set (g := λ n : text, match fs !! (n :: d) with
                        | Some nd => entry_of n nd
                        | None => Item n file 0 mtime
                        end).
  set (body := λ item : text,
         let item_path := PosixPath.join target item in
         let* is_dir := path_isdir item_path in
         let* size := if (is_dir : bool) then ret 0 else getsize item_path in
         let* mtime := getmtime item_path in
         ret (Item item (if is_dir then directory else file) size mtime)).
  destruct (for_each_run body g (λ w', files w' = fs) (children fs d)
              (logged (SysListdir target) (logged (SysStat target) w)))
    as (w' & Hloop & Hfiles); [done | |].
  { intros n w0 Hn Hw0. apply elem_of_children in Hn as [nd Hnd].
    assert (is_name n = true) as Hname.
    { specialize (Hnames _ _ Hnd). simpl in Hnames. by apply Forall_cons in Hnames as [? _]. }
    assert (stat (files w0) (PosixPath.join target n) = Some nd) as Hstat.
    { unfold stat. rewrite Hw0. by erewrite locate_join_child. }
    unfold body, g. rewrite Hnd.
    rewrite run_path_isdir, Hstat.
    destruct nd as [t | content t]; cbv beta iota.
    - rewrite bind_pure, run_getmtime. cbn [files logged]. rewrite Hstat. eauto.
    - rewrite run_getsize. cbn [files logged]. rewrite Hstat.
      rewrite run_getmtime. cbn [files logged]. rewrite Hstat. eauto. }
  assert (entries fs d = g <$> children fs d) as ->.
  { unfold entries. apply omap_all. intros n [nd Hnd]%elem_of_children.
    unfold g. by rewrite Hnd. }
  exists w'. unfold list_files, try_except.
  rewrite run_path_exists. unfold stat. fold target fs. rewrite Hl. simpl.
  rewrite Hd, bool_decide_true by eauto. cbn [negb].
  rewrite run_listdir. cbn [files logged]. fold fs. rewrite Hl, Hd.
  fold body. by rewrite (bind_ret _ _ _ _ _ Hloop).
Qed.

(** The directory that list_files looks into for the path an upload or a
    folder was given. *)
Lemma locate_listed fs (field : text) d :
  let upload_path := strip_chars "/" field in
  let sd := if bool_decide (upload_path = []) then UPLOAD_FOLDER
            else UPLOAD_FOLDER ++ "/" ++ upload_path in
  locate fs sd = Some d → is_dir fs d = true →
  locate fs (PosixPath.join UPLOAD_FOLDER upload_path) = Some d.
Proof.
  intros upload_path sd Hd Hdir. rewrite join_root by apply strip_slash_head.
  unfold sd in Hd. case_bool_decide as Hup; [|done].
  rewrite Hup. unfold locate in *. lits.
  rewrite bool_decide_false in Hd |- * by done.
  change (UPLOAD_FOLDER ++ ["/"%char] ++ []) with (UPLOAD_FOLDER ++ "/"%char :: []).
  rewrite split_app, walk_app, Hd. simpl. by rewrite Hdir.
Qed.

End listed.

(** ** Upload, then retrieval or listing *)
Section upload_then.
Implicit Types (w : world) (sd : text) (d : location).

(** X2.  Round trip.  When an upload passes its checks and its directory is
    there, it is stored under the name asked for, or under the stamped name
    when that one is taken (and the stamped name is not a directory's); the
    retrieval endpoint, given the 'path' of the upload's answer, then serves
    exactly the uploaded bytes, provided that path does not contain "..". *)
Theorem upload_then_download (request : upload_request) w filename content sd w1 d :
  req_file request = Some (filename, content) →
  filename ≠ [] →
  allowed_file filename = true →
  let upload_path := strip_chars "/" (form_get (req_path request)) in
  let wanted := resolve_filename filename (form_get (req_filename request)) in
  let stored := if bool_decide (is_Some (files w1 !! (wanted :: d)))
                then stamped wanted (wall w) else wanted in
  resolve_directory upload_path w = (Ret sd, w1) →
  locate (files w1) sd = Some d →
  is_dir (files w1) d = true →
  is_dir (files w1) (stored :: d) = false →
  contains ".." (relative_path upload_path stored) = false →
  ∃ upload_time w' w'',
    upload_file request w
    = (Ret (Uploaded stored (relative_path upload_path stored) (file_url upload_path stored)
              (length content) upload_time), w') ∧
    download_file (relative_path upload_path stored) w' = (Ret (Served content), w'').
Proof.
  intros Hfile Hne Hallowed upload_path wanted stored Hdir Hd Hisdir Hfree Hdots.
  destruct (upload_stores request w filename content sd w1 d)
    as (mtime & t & w' & Hrun & Hstored & _ & Hdirs); try done.
  fold upload_path wanted stored in Hrun, Hstored.
  destruct (resolve_directory_run _ _ _ _ Hdir) as [Hsd _]. fold upload_path in Hsd.
  assert (is_name stored = true) as Hname.
  { assert (is_name wanted = true) as Hwanted by by apply resolve_filename_name.
    unfold stored. destruct (bool_decide _); [|done].
    apply is_name_stamped. by apply is_name_no_slash. }
  destruct (download_serves (form_get (req_path request)) stored w' d content mtime)
    as (w'' & Hget & _); try done.
  - fold upload_path. rewrite <- Hsd. by rewrite (locate_same_dirs (files w1)).
  - by rewrite Hdirs.
  - by exists t, w', w''.
Qed.

Lemma upload_then_download_witness :
  ∃ upload_time w' w'',
    upload_file (upload_to "My Report.PDF" "/2025/q1/" "" [Byte.x41; Byte.x42]) (booted ticking)
    = (Ret (Uploaded "My_Report.PDF" "2025/q1/My_Report.PDF"
              "http://localhost:5000/files/2025/q1/My_Report.PDF" 2 upload_time), w') ∧
    download_file "2025/q1/My_Report.PDF" w' = (Ret (Served [Byte.x41; Byte.x42]), w'').
Proof.
  apply (upload_then_download
           (upload_to "My Report.PDF" "/2025/q1/" "" [Byte.x41; Byte.x42]) (booted ticking)
           "My Report.PDF" [Byte.x41; Byte.x42] "/app/files/2025/q1"
           (resolve_directory "2025/q1" (booted ticking)).2
           (spot ["q1"; "2025"; "files"; "app"])); evaluate.
Defined.

(** X3.  After such an upload, listing the path the upload was given shows
    the stored file: an item with the stored name, of type file, with the
    byte count of the content as its size. *)
Theorem upload_then_list (request : upload_request) w filename content sd w1 d :
  req_file request = Some (filename, content) →
  filename ≠ [] →
  allowed_file filename = true →
  let folder_path := form_get (req_path request) in
  let upload_path := strip_chars "/" folder_path in
  let wanted := resolve_filename filename (form_get (req_filename request)) in
  let stored := if bool_decide (is_Some (files w1 !! (wanted :: d)))
                then stamped wanted (wall w) else wanted in
  well_named (files w) →
  resolve_directory upload_path w = (Ret sd, w1) →
  locate (files w1) sd = Some d →
  is_dir (files w1) d = true →
  is_dir (files w1) (stored :: d) = false →
  ∃ items mtime w' w'',
    (upload_file request w).2 = w' ∧
    list_files folder_path w' = (Ret (Listing folder_path items (length items)), w'') ∧
    Item stored file (length content) mtime ∈ items.
Proof.
  intros Hfile Hne Hallowed folder_path upload_path wanted stored Hnames Hdir Hd Hisdir Hfree.
  destruct (upload_stores request w filename content sd w1 d)
    as (mtime & t & w' & Hrun & Hstored & Hframe & Hdirs); try done.
  fold upload_path wanted stored in Hrun, Hstored, Hframe.
  destruct (resolve_directory_run _ _ _ _ Hdir) as [Hsd _]. fold upload_path in Hsd.
  assert (is_name stored = true) as Hname.
  { assert (is_name wanted = true) as Hwanted by by apply resolve_filename_name.
    unfold stored. destruct (bool_decide _); [|done].
    apply is_name_stamped. by apply is_name_no_slash. }
  pose proof (resolve_directory_well_named _ _ _ _ Hdir Hnames) as Hnames1.
  assert (well_named (files w')) as Hnames'.
  { apply (well_named_written (files w1) _ (stored :: d) d); [done | | done..].
    constructor; [done|]. by eapply is_dir_named. }
  assert (is_dir (files w') d = true) as Hisdir' by by rewrite Hdirs.
  assert (∃ mtime', files w' !! d = Some (Dir mtime')) as [mtime' Hnode].
  { unfold is_dir in Hisdir'. destruct (files w' !! d) as [[t'|]|]; [by exists t' | done..]. }
  destruct (list_files_run folder_path w' d mtime') as (w'' & Hlist); [done | | done |].
  { apply (locate_listed _ folder_path d); [|done].
    fold upload_path. rewrite <- Hsd. by rewrite (locate_same_dirs (files w1)). }
  exists (entries (files w') d), mtime, w', w''.
  split; [by rewrite Hrun|]. split; [done|].
  apply elem_of_entries. exists (File content mtime). by split.
Qed.

Lemma upload_then_list_witness :
  ∃ items mtime w' w'',
    (upload_file (upload_to "x.pdf" "docs" "" [Byte.x41]) (booted ticking)).2 = w' ∧
    list_files "docs" w' = (Ret (Listing "docs" items (length items)), w'') ∧
    Item "x.pdf" file 1 mtime ∈ items.
Proof.
  apply (upload_then_list (upload_to "x.pdf" "docs" "" [Byte.x41]) (booted ticking)
           "x.pdf" [Byte.x41] "/app/files/docs"
           (resolve_directory "docs" (booted ticking)).2 (spot ["docs"; "files"; "app"]));
    evaluate.
Defined.

End upload_then.

(** ** Upload: where the bytes land *)
Section landing.
Implicit Types (fs : gmap (list text) node) (w : world) (sd : text) (d l : location).

Lemma locate_child_inv fs (sd n : text) l :
  sd ≠ [] → is_name n = true → locate fs (sd ++ "/" ++ n) = Some l →
  ∃ d, locate fs sd = Some d ∧ is_dir fs d = true ∧ l = n :: d.
Proof.
  intros Hsd Hn. unfold locate. lits.
  rewrite bool_decide_false by by destruct sd.
  rewrite (bool_decide_false (sd = [])) by done.
  simpl. rewrite split_app, walk_app.
  destruct (walk fs [] (split "/" sd)) as [d|]; [|done]. simpl.
  rewrite (split_plain _ n) by by apply is_name_no_slash.
  unfold is_name in Hn. apply andb_true_iff in Hn as [[Hs Hu]%andb_true_iff _].
  simpl. destruct (is_dir fs d) eqn:Hdir; [|done].
  destruct (stays n), (goes_up n); try done. intros [= <-]. eauto.
Qed.

Lemma touch_file_inv t d fs l content t' :
  touch t d fs !! l = Some (File content t') → fs !! l = Some (File content t').
Proof.
  unfold touch. destruct (fs !! d) as [[t''|]|] eqn:Hd; [|done..].
  destruct (decide (l = d)) as [->|]; [by rewrite lookup_insert_eq|].
  by rewrite lookup_insert_ne.
Qed.

Lemma makedirs_walk_files t fs cur segs fs' l content t' :
  makedirs_walk t fs cur segs = inr fs' →
  fs' !! l = Some (File content t') → fs !! l = Some (File content t').
Proof.
  revert fs cur. induction segs as [|s segs IH]; intros fs cur; simpl.
  - destruct (is_dir fs cur); [|done]. by intros [= ->].
  - destruct (is_dir fs cur); [|done].
    destruct (stays s); [apply IH|]. destruct (goes_up s); [apply IH|].
    destruct (fs !! (s :: cur)) eqn:Hc; [apply IH|].
    intros Hrun Hl. specialize (IH _ _ Hrun Hl). unfold mkdir in IH.
    destruct (decide (l = s :: cur)) as [->|]; [by rewrite lookup_insert_eq in IH|].
    rewrite lookup_insert_ne in IH by done. by eapply touch_file_inv.
Qed.

(** Making the directory of an upload leaves every regular file as it is
    and makes none. *)
Lemma resolve_directory_files (upload_path : text) w sd w1 l content t :
  resolve_directory upload_path w = (Ret sd, w1) →
  files w1 !! l = Some (File content t) ↔ files w !! l = Some (File content t).
Proof.
  unfold resolve_directory. case_bool_decide as Hup; simpl.
  - by intros [= <- <-].
  - rewrite create_directory_eq, run_create_directory.
    destruct (makedirs_walk _ _ _ _) as [[]|fs'] eqn:Hrun; [done|]. intros [= <- <-].
    cbn [files with_files logged]. split.
    + by eapply makedirs_walk_files.
    + intros Hl. pose proof (makedirs_walk_extends _ _ _ _ _ Hrun l) as Hext.
      by rewrite Hl in Hext.
Qed.

Lemma resolve_directory_dirs (upload_path : text) w sd w1 l :
  resolve_directory upload_path w = (Ret sd, w1) →
  is_dir (files w) l = true → is_dir (files w1) l = true.
Proof.
  unfold resolve_directory. case_bool_decide as Hup; simpl.
  - by intros [= <- <-].
  - rewrite create_directory_eq, run_create_directory.
    destruct (makedirs_walk _ _ _ _) as [[]|fs'] eqn:Hrun; [done|]. intros [= <- <-].
    cbn [files with_files logged]. apply extends_is_dir. by eapply makedirs_walk_extends.
Qed.

Lemma path_exists_run (p : text) w :
  path_exists p w = (Ret (bool_decide (is_Some (stat (files w) p))), logged (SysStat p) w).
Proof. done. Qed.

Lemma save_inv content (p : text) w w' :
  save content p w = (Ret tt, w') →
  ∃ fs', write_tree (wall w) (files w) p content = inr fs'.
Proof.
  unfold save, bind, log, get_files, get_wall, lift. simpl.
  destruct (write_tree _ _ _ _); [done|]. eauto.
Qed.

Lemma write_tree_inv t fs (p : text) content fs' :
  write_tree t fs p content = inr fs' →
  ∃ l, locate fs p = Some l ∧ is_dir fs l = false.
Proof.
  unfold write_tree. destruct (locate fs p) as [l|]; [|done].
  destruct (fs !! l) as [[]|] eqn:Hnode; [done|..];
    intros _; exists l; unfold is_dir; by rewrite Hnode.
Qed.

(** X4.  Whatever an upload is answered with as its filename is the name of
    a single directory entry: not empty, not "." or "..", without "/"; the
    'path' and 'url' of the answer are built from it and the stripped 'path'
    field.  The uploaded bytes are then the regular file of that name in the
    directory that UPLOAD_FOLDER joined with the stripped 'path' field
    resolves to, the 'size' of the answer is their count, and every other
    regular file on the disk is as it was before the request: the 'filename'
    field and the original filename cannot make the upload write anywhere
    else. *)
Theorem upload_lands_in_its_directory (request : upload_request) w w'
    stored path url size upload_time :
  upload_file request w = (Ret (Uploaded stored path url size upload_time), w') →
  let upload_path := strip_chars "/" (form_get (req_path request)) in
  let sd := if bool_decide (upload_path = []) then UPLOAD_FOLDER
            else UPLOAD_FOLDER ++ "/" ++ upload_path in
  is_name stored = true ∧
  path = relative_path upload_path stored ∧
  url = file_url upload_path stored ∧
  ∃ filename content d mtime,
    req_file request = Some (filename, content) ∧
    size = length content ∧
    locate (files w') sd = Some d ∧
    is_dir (files w') d = true ∧
    files w' !! (stored :: d) = Some (File content mtime) ∧
    stat (files w') (sd ++ "/" ++ stored) = Some (File content mtime) ∧
    (∀ k c t, k ≠ stored :: d →
       files w' !! k = Some (File c t) ↔ files w !! k = Some (File c t)) ∧
    (∀ k, is_dir (files w) k = true → is_dir (files w') k = true).
Proof.
  intros Hrun upload_path sd. pose proof Hrun as Hbody.
  unfold upload_file, try_except in Hbody.
  destruct (req_file request) as [[filename content]|] eqn:Hfile; [|done].
  case_bool_decide as Hne; [done|].
  destruct (allowed_file filename) eqn:Hallowed; [|done]. cbn [negb] in Hbody.
  fold upload_path in Hbody.
  rewrite (bind_ret _ _ _ _ _ (wanted_name_run _ _ _ Hallowed)) in Hbody.
  set (wanted := resolve_filename filename (form_get (req_filename request))) in *.
  assert (is_name wanted = true) as Hwanted by by apply resolve_filename_name.
  match type of Hbody with
  | (let (_, _) := ?body w in _) = _ => destruct (body w) as [[r|e] w0] eqn:Hinner
  end; [|done].
  clear Hbody.
  change (if negb (bool_decide (upload_path = [])) then create_directory upload_path
          else ret UPLOAD_FOLDER) with (resolve_directory upload_path) in Hinner.
  apply bind_inv in Hinner as (sd' & w1 & Hdir & Hinner).
  destruct (resolve_directory_run _ _ _ _ Hdir) as [Hsd Hwall].
  fold upload_path sd in Hsd. subst sd'.
  destruct (save_directory_shape (form_get (req_path request))) as [Hsd_ne Hsd_last].
  fold upload_path sd in Hsd_ne, Hsd_last.
  assert (∀ n, is_name n = true → PosixPath.join sd n = sd ++ "/" ++ n) as Hjoin.
  { intros n Hn. apply join_plain; [done..|]. by apply is_name_head. }
  apply bind_inv in Hinner as (taken & w2 & Htaken & Hinner).
  rewrite path_exists_run in Htaken. injection Htaken as <- <-.
  apply bind_inv in Hinner as ([name file_path] & w3 & Hrenamed & Hinner).
  apply bind_inv in Hinner as ([] & w4 & Hsave & _).
  set (taken := bool_decide (is_Some (stat (files w1) (PosixPath.join sd wanted)))) in *.
  assert (name = (if taken then stamped wanted (wall w) else wanted) ∧
          file_path = sd ++ "/" ++ name ∧ is_name name = true ∧
          files w3 = files w1) as (Hname & -> & Hplain & Hfiles3).
  { destruct taken.
    - pose proof (is_name_stamped wanted (wall w) (is_name_no_slash _ Hwanted)) as Hst.
      unfold stamped in *. destruct (PosixPath.splitext wanted) as [base ext].
      rewrite run_datetime_now in Hrenamed. unfold wall at 1 2 in Hrenamed.
      cbn [clock ticks logged] in Hrenamed. fold (wall w1) in Hrenamed.
      rewrite Hwall in Hrenamed. injection Hrenamed as <- <- <-.
      by rewrite Hjoin.
    - injection Hrenamed as <- <- <-. by rewrite Hjoin. }
  apply save_inv in Hsave as [fs' Hwrite].
  apply write_tree_inv in Hwrite as (l & Hl & Hfree). rewrite Hfiles3 in Hl, Hfree.
  apply locate_child_inv in Hl as (d & Hd & Hisdir & ->); [|done..].
  assert (taken = bool_decide (is_Some (files w1 !! (wanted :: d)))) as Htaken.
  { unfold taken, stat. rewrite Hjoin by done. by rewrite (locate_child _ sd wanted d). }
  rewrite Htaken in Hname. subst name.
  destruct (upload_stores request w filename content sd w1 d)
    as (mtime & t & w'' & Hrun' & Hstored & Hframe & Hdirs); try done.
  fold upload_path wanted in Hrun', Hstored, Hframe.
  rewrite Hrun in Hrun'. injection Hrun' as -> -> -> -> _ ->.
  set (stored := if bool_decide (is_Some (files w1 !! (wanted :: d)))
                 then stamped wanted (wall w) else wanted) in *.
  split; [done|]. split; [done|]. split; [done|].
  exists filename, content, d, mtime.
  assert (locate (files w'') sd = Some d) as Hd'' by by rewrite (locate_same_dirs (files w1)).
  assert (is_dir (files w'') d = true) as Hisdir'' by by rewrite Hdirs.
  split; [done|]. split; [done|]. split; [done|]. split; [done|]. split; [done|].
  split; [|split].
  - unfold stat. by rewrite (locate_child _ sd stored d).
  - intros k c t' Hk. rewrite <- (resolve_directory_files _ _ _ _ _ _ _ Hdir).
    destruct (decide (k = d)) as [->|Hkd]; [|by rewrite Hframe].
    unfold is_dir in Hisdir, Hisdir''.
    destruct (files w'' !! d) as [[]|]; [|done..].
    by destruct (files w1 !! d) as [[]|].
  - intros k Hk. rewrite Hdirs. by eapply resolve_directory_dirs.
Qed.

Lemma upload_lands_in_its_directory_witness :
  let request := upload_to "../../etc/passwd.txt" "up" "../x" [Byte.x41] in
  let w := booted ticking in
  let w' := (upload_file request w).2 in
  let stored : text := "x.txt" in
  let path : text := "up/x.txt" in
  let url : text := "http://localhost:5000/files/up/x.txt" in
  let upload_path := strip_chars "/" (form_get (req_path request)) in
  let sd := if bool_decide (upload_path = []) then UPLOAD_FOLDER
            else UPLOAD_FOLDER ++ "/" ++ upload_path in
  is_name stored = true ∧
  path = relative_path upload_path stored ∧
  url = file_url upload_path stored ∧
  ∃ filename content d mtime,
    req_file request = Some (filename, content) ∧
    1 = length content ∧
    locate (files w') sd = Some d ∧
    is_dir (files w') d = true ∧
    files w' !! (stored :: d) = Some (File content mtime) ∧
    stat (files w') (sd ++ "/" ++ stored) = Some (File content mtime) ∧
    (∀ k c t, k ≠ stored :: d →
       files w' !! k = Some (File c t) ↔ files w !! k = Some (File c t)) ∧
    (∀ k, is_dir (files w) k = true → is_dir (files w') k = true).
Proof.
  intros request w w' stored path url.
  apply (upload_lands_in_its_directory request w w' stored path url 1 (ticking 0)).
  evaluate.
Defined.

End landing.

(** ** Creating directories: a regular file in the way *)


(** ** Creating folders *)
Section folders.
Implicit Types (w : world) (d : location).

Lemma create_folder_string (s : text) w :
  create_folder (make_folder s) w
  = if bool_decide (strip_chars "/" s = []) then (Ret (Failure EMPTY_PATH 400), w)
    else match create_directory (strip_chars "/" s) w with
         | (Ret full_path, w1) =>
             (Ret (FolderCreated (strip_chars "/" s) full_path (wall w1)), ticked w1)
         | (Raise e, w1) => (Ret (Failure CREATE_FOLDER_ERROR 500), w1)
         end.
Proof.
  unfold create_folder, try_except, make_folder. cbn.
  rewrite (bool_decide_false (1 = 0)) by done.
  rewrite (bool_decide_true (_ ∈ _)) by set_solver.
  rewrite decide_True by done. cbn.
  case_bool_decide; [done|]. unfold bind.
  by destruct (create_directory _ w) as [[full_path|e] w1].
Qed.

(** X5.  create-folder without a usable path: a body that is empty or has
    no "path" member is answered MISSING_PATH, a path of nothing but slashes
    EMPTY_PATH, both with status 400; a "path" that is not a string, or a
    body that is not JSON, ends in the handler's except clause as
    CREATE_FOLDER_ERROR with status 500.  In all these cases the world is
    untouched. *)
Theorem create_folder_rejections (w : world) :
  (∀ data, truthy data = false →
     create_folder (Parsed data) w = (Ret (Failure MISSING_PATH 400), w)) ∧
  (∀ members, ("path" : text) ∉ members.*1 →
     create_folder (Parsed (JObj members)) w = (Ret (Failure MISSING_PATH 400), w)) ∧
  (∀ s : text, strip_chars "/" s = [] →
     create_folder (make_folder s) w = (Ret (Failure EMPTY_PATH 400), w)) ∧
  (∀ value, (∀ s, value ≠ JStr s) →
     create_folder (Parsed (JObj [("path" : text, value)])) w
     = (Ret (Failure CREATE_FOLDER_ERROR 500), w)) ∧
  create_folder Unparsable w = (Ret (Failure CREATE_FOLDER_ERROR 500), w).
Proof.
  split; [|split; [|split; [|split]]].
  - intros data Hdata. unfold create_folder, try_except, get_json.
    by rewrite bind_pure, Hdata.
  - intros members Hmissing. unfold create_folder, try_except, get_json.
    rewrite bind_pure. unfold truthy, json_in.
    rewrite (bool_decide_false (_ ∈ _)) by done.
    by destruct (negb (negb (bool_decide (length members = 0)))).
  - intros s Hs. by rewrite create_folder_string, bool_decide_true.
  - intros value Hvalue. destruct value; try reflexivity. by destruct (Hvalue s).
  - done.
Qed.

Lemma create_folder_rejections_witness :
  create_folder (Parsed (JObj [])) (booted ticking)
    = (Ret (Failure MISSING_PATH 400), booted ticking) ∧
  create_folder (Parsed (JObj [("name" : text, JStr "a")])) (booted ticking)
    = (Ret (Failure MISSING_PATH 400), booted ticking) ∧
  create_folder (make_folder "//") (booted ticking)
    = (Ret (Failure EMPTY_PATH 400), booted ticking) ∧
  create_folder (Parsed (JObj [("path" : text, JNum 5)])) (booted ticking)
    = (Ret (Failure CREATE_FOLDER_ERROR 500), booted ticking).
Proof.
  destruct (create_folder_rejections (booted ticking)) as (H1 & H2 & H3 & H4 & _).
  split; [|split; [|split]].
  - apply H1. evaluate.
  - apply H2. evaluate.
  - apply H3. evaluate.
  - apply H4. intros s. discriminate.
Defined.




End folders.

(** ** Creating a folder, then listing *)
Section folder_then_list.
Implicit Types (w : world) (d cur : location) (segs : list text).

Lemma trail_head cur segs : ∃ rest, trail cur segs = cur :: rest.
Proof. destruct segs; simpl; eauto. Qed.

Lemma trail_app (P : location → Prop) cur segs more :
  Forall P (trail cur (segs ++ more)) →
  Forall P (trail cur segs) ∧ Forall P (trail (lexical cur segs) more).
Proof.
  revert cur. induction segs as [|s segs IH]; intros cur; simpl.
  - intros H. split; [|done]. destruct (trail_head cur more) as [rest Hrest].
    rewrite Hrest in H. apply Forall_cons in H as [? _]. by constructor.
  - intros [Hcur H]%Forall_cons. destruct (IH _ H) as [H1 H2].
    split; [by constructor | done].
Qed.

Lemma relative_path_stripped (field n : text) :
  is_name n = true →
  strip_chars "/" (relative_path (strip_chars "/" field) n)
  = relative_path (strip_chars "/" field) n.
Proof.
  intros Hn. pose proof (is_name_no_slash n Hn) as Hslash.
  assert (n ≠ []) as Hne by (intros ->; by vm_compute in Hn).
  apply strip_id; intros c Hc; apply not_true_is_false; intros Hin%in_chars_one; subst c.
  - unfold relative_path in Hc. case_bool_decide as Hup; cbn [negb] in Hc.
    + by apply is_name_head in Hc.
    + pose proof (strip_slash_head field) as Hhead.
      destruct (strip_chars "/" field); [done|]. by apply Hhead.
  - unfold relative_path in Hc. destruct (negb _).
    + rewrite !last_app in Hc. destruct (last n) as [c|] eqn:Hlast.
      * injection Hc as ->. apply last_Some in Hlast as [front ->]. set_solver.
      * by apply last_None in Hlast.
    + apply last_Some in Hc as [front ->]. set_solver.
Qed.

(** X7.  Creating a folder and then listing its parent: when no regular
    file is in the way, create-folder answers with the stripped path and the
    full path, and a listing of the parent path then holds an item with the
    folder's name, of type directory and size 0. *)
Theorem create_folder_then_list (field n : text) w :
  let parent_path := strip_chars "/" field in
  let path := relative_path parent_path n in
  let full_path := UPLOAD_FOLDER ++ "/" ++ path in
  is_name n = true →
  rooted (files w) →
  well_named (files w) →
  Forall (λ l, is_file (files w) l = false) (trail [] (split "/" full_path)) →
  ∃ w' items mtime w'',
    create_folder (make_folder path) w = (Ret (FolderCreated path full_path (wall w)), w') ∧
    list_files field w' = (Ret (Listing field items (length items)), w'') ∧
    Item n directory 0 mtime ∈ items.
Proof.
  intros parent_path path full_path Hn Hrooted Hnames Hclear.
  pose proof (relative_path_stripped field n Hn) as Hstrip. fold parent_path path in Hstrip.
  assert (path ≠ []) as Hpath.
  { unfold path, relative_path. assert (n ≠ []) by (intros ->; by vm_compute in Hn).
    destruct (negb _); [|done]. intros H'. by apply app_eq_nil in H' as [_ ?]. }
  set (sd := if bool_decide (parent_path = []) then UPLOAD_FOLDER
             else UPLOAD_FOLDER ++ "/" ++ parent_path).
  assert (full_path = sd ++ "/" ++ n) as Hfull.
  { unfold full_path, path, relative_path, sd. case_bool_decide; [done|]. cbn [negb].
    by rewrite <- !(assoc_L (++)). }
  destruct (save_directory_shape field) as [Hsd_ne _]. fold parent_path sd in Hsd_ne.
  assert (split "/" full_path = split "/" sd ++ [n]) as Hsplit.
  { rewrite Hfull. lits. simpl. rewrite split_app.
    by rewrite (split_plain _ n) by by apply is_name_no_slash. }
  destruct (makedirs_walk_succeeds (wall w) (files w) [] (split "/" full_path))
    as (fs' & Hrun & _); [done | apply Hrooted | done |].
  pose proof (makedirs_walk_trail _ _ _ _ _ Hrun) as Htrail.
  rewrite Hsplit in Htrail. apply trail_app in Htrail as [Hway Hend].
  set (d := lexical [] (split "/" sd)) in *.
  assert (is_dir fs' d = true ∧ is_dir fs' (n :: d) = true) as [Hd Hnd].
  { simpl in Hend. apply Forall_cons in Hend as [? [Hstep _]%Forall_cons].
    split; [done|]. unfold step in Hstep. unfold is_name in Hn.
    apply andb_true_iff in Hn as [[Hs Hu]%andb_true_iff _].
    by destruct (stays n), (goes_up n). }
  assert (locate fs' sd = Some d) as Hlocate.
  { unfold locate. rewrite bool_decide_false by done. by apply walk_trail. }
  assert (well_named fs') as Hnames'.
  { eapply makedirs_walk_well_named; [done | constructor | apply split_pieces | done]. }
  rewrite create_folder_string, Hstrip, bool_decide_false by done.
  rewrite create_directory_eq, run_create_directory, Hstrip. fold full_path.
  rewrite Hrun. cbn [ret].
  set (w' := ticked (with_files fs' (logged (SysMakedirs full_path) w))).
  assert (∃ mtime, fs' !! d = Some (Dir mtime)) as [mtime Hnode].
  { unfold is_dir in Hd. destruct (fs' !! d) as [[t|]|]; [by exists t | done..]. }
  assert (∃ mtime, fs' !! (n :: d) = Some (Dir mtime)) as [mtime' Hnode'].
  { unfold is_dir in Hnd. destruct (fs' !! (n :: d)) as [[t|]|]; [by exists t | done..]. }
  destruct (list_files_run field w' d mtime) as (w'' & Hlist); [done | | done |].
  { by apply (locate_listed fs' field d). }
  exists w', (entries fs' d), mtime', w''. split; [done|]. split; [done|].
  apply elem_of_entries. exists (Dir mtime'). by split.
Qed.

Lemma create_folder_then_list_witness :
  ∃ w' items mtime w'',
    create_folder (make_folder "a/b/c") (booted ticking)
    = (Ret (FolderCreated "a/b/c" "/app/files/a/b/c" (ticking 0)), w') ∧
    list_files "a/b" w' = (Ret (Listing "a/b" items (length items)), w'') ∧
    Item "c" directory 0 mtime ∈ items.
Proof.
  apply (create_folder_then_list "a/b" "c" (booted ticking)); evaluate.
Defined.

End folder_then_list.

(** ** Retrieval of what is not a regular file *)

(** X8.  A retrieval path without ".." and without a leading "/" that names
    nothing is answered FILE_NOT_FOUND with status 404.  One that names a
    directory passes the existence check; flask's send_from_directory then
    raises NotFound, which the handler's except clause turns into ACCESS_ERROR
    with status 500. *)
Theorem download_misses (w : world) :
  (∀ filename : text,
     contains ".." filename = false →
     startswith "/" filename = false →
     stat (files w) (PosixPath.join UPLOAD_FOLDER filename) = None →
     (download_file filename w).1 = Ret (Failure FILE_NOT_FOUND 404)) ∧
  (∀ (field n : text) d mtime,
     let upload_path := strip_chars "/" field in
     let sd := if bool_decide (upload_path = []) then UPLOAD_FOLDER
               else UPLOAD_FOLDER ++ "/" ++ upload_path in
     is_name n = true →
     contains ".." (relative_path upload_path n) = false →
     locate (files w) sd = Some d →
     is_dir (files w) d = true →
     files w !! (n :: d) = Some (Dir mtime) →
     (download_file (relative_path upload_path n) w).1 = Ret (Failure ACCESS_ERROR 500)).
Proof.
  split.
  - intros filename Hdots Hslash Hstat. unfold download_file, try_except.
    rewrite Hdots, Hslash. cbn [orb].
    rewrite run_path_exists, Hstat, bool_decide_false by by intros [? ?]. done.
  - intros field n d mtime upload_path sd Hn Hdots Hd Hdir Hnode.
    destruct (save_directory_shape field) as [Hsd_ne Hsd_last].
    fold upload_path sd in Hsd_ne, Hsd_last.
    pose proof (is_name_no_slash n Hn) as Hslash.
    pose proof (is_name_head n Hn) as Hhead.
    set (rel := relative_path upload_path n) in *.
    assert (head rel ≠ Some "/"%char) as Hrel.
    { unfold rel, relative_path. case_bool_decide as Hup; [done|]. cbn [negb].
      pose proof (strip_slash_head field) as Hh. fold upload_path in Hh.
      by destruct upload_path. }
    assert (PosixPath.join UPLOAD_FOLDER rel = sd ++ "/" ++ n) as Hpath.
    { rewrite join_root by done. unfold rel, relative_path, sd.
      case_bool_decide; [done|]. cbn [negb]. by rewrite <- !(assoc_L (++)). }
    assert (stat (files w) (sd ++ "/" ++ n) = Some (Dir mtime)) as Hstat.
    { unfold stat. rewrite (locate_child _ sd n d) by done. done. }
    unfold download_file, try_except. rewrite Hdots.
    destruct (startswith "/" rel) eqn:Hstart.
    { lits. by apply startswith_head in Hstart. }
    cbn [orb]. rewrite run_path_exists, Hpath, Hstat, bool_decide_true by eauto.
    cbn [negb]. rewrite dirname_child, basename_child by done.
    unfold send_from_directory, safe_join.
    destruct (startswith "/" n) eqn:Hn1.
    { lits. by apply startswith_head in Hn1. }
    rewrite bool_decide_false.
    2: { intros ->. by vm_compute in Hn. }
    destruct (startswith "../" n) eqn:Hn2.
    { apply startswith_spec in Hn2 as [rest ->]. lits. set_solver. }
    cbn [orb]. rewrite join_plain by done.
    rewrite run_path_isfile. cbn [files logged]. rewrite Hstat. done.
Qed.

Lemma download_misses_witness :
  let w := (create_folder (make_folder "a/b") (booted ticking)).2 in
  (download_file "a/nothing.txt" w).1 = Ret (Failure FILE_NOT_FOUND 404) ∧
  (download_file "a/b" w).1 = Ret (Failure ACCESS_ERROR 500).
Proof.
  intros w. destruct (download_misses w) as [Hmissing Hdirectory]. split.
  - apply Hmissing; evaluate.
  - apply (Hdirectory "a" "b" (spot ["a"; "files"; "app"]) (ticking 0)); evaluate.
Defined.

(** ** Starting the service *)

(** X9.  The module body makes the storage root: from a disk where neither
    /app nor /app/files is a regular file, loading app.py succeeds and
    leaves /app/files a directory, with everything that was there still
    there; loading it again changes no file. *)
Theorem startup_makes_storage_root (w : world) :
  rooted (files w) →
  is_file (files w) (parent storage_root) = false →
  is_file (files w) storage_root = false →
  ∃ w' w'',
    startup w = (Ret tt, w') ∧
    is_dir (files w') storage_root = true ∧
    extends (files w) (files w') ∧
    startup w' = (Ret tt, w'') ∧
    files w'' = files w'.
Proof.
  intros Hrooted Happ Hroot.
  assert (split "/" UPLOAD_FOLDER = ["" : text; "app" : text; "files" : text]) as Hsplit
    by reflexivity.
  assert (∀ w0, startup w0 = bind (makedirs UPLOAD_FOLDER) ret w0) as Heq.
  { intros w0. unfold startup, bind. by destruct (makedirs UPLOAD_FOLDER w0) as [[[]|]]. }
  rewrite !Heq, run_makedirs. unfold makedirs_tree.
  rewrite bool_decide_false by done.
  destruct (makedirs_walk_succeeds (wall w) (files w) [] (split "/" UPLOAD_FOLDER))
    as (fs' & Hrun & _); [done | apply Hrooted | |].
  { rewrite Hsplit. destruct Hrooted as [Hslash _].
    assert (is_file (files w) [] = false) as Hnot.
    { unfold is_dir in Hslash. unfold is_file. by destruct (files w !! []) as [[]|]. }
    repeat constructor; done. }
  rewrite Hrun.
  pose proof (makedirs_walk_trail _ _ _ _ _ Hrun) as Htrail.
  pose proof (walk_trail _ _ _ Htrail) as Hwalk.
  assert (is_dir fs' storage_root = true) as Hdir.
  { rewrite Hsplit in Htrail. simpl in Htrail.
    by apply Forall_cons in Htrail as [_ [_ [_ [? _]%Forall_cons]%Forall_cons]%Forall_cons]. }
  eexists _, _. split; [done|]. split; [done|].
  split; [by eapply makedirs_walk_extends|].
  rewrite Heq, run_makedirs. unfold makedirs_tree. rewrite bool_decide_false by done.
  cbn [files with_files logged].
  rewrite (makedirs_walk_existing _ _ _ _ storage_root); [done | | done].
  by rewrite Hwalk, Hsplit.
Qed.

Lemma startup_makes_storage_root_witness :
  ∃ w' w'',
    startup (bare ticking) = (Ret tt, w') ∧
    is_dir (files w') storage_root = true ∧
    extends (files (bare ticking)) (files w') ∧
    startup w' = (Ret tt, w'') ∧
    files w'' = files w'.
Proof. apply startup_makes_storage_root; evaluate. Defined.

(** ** The slashes around a listed path *)

(** X10.  The list endpoint looks at its path only after stripping the
    slashes at both ends: two paths that are equal once stripped get the same
    items and count, or the same error, and leave the same world; only the
    'path' echoed in the answer is the one that was given. *)
Theorem list_ignores_outer_slashes (path1 path2 : text) (w : world) :
  strip_chars "/" path1 = strip_chars "/" path2 →
  same_listing (list_files path1 w).1 (list_files path2 w).1 ∧
  (list_files path1 w).2 = (list_files path2 w).2.
Proof.
  intros Hsame. unfold list_files, try_except, bind. rewrite Hsame.
  destruct (path_exists _ w) as [[found|e] w1]; [|done].
  destruct (negb found); [done|].
  destruct (listdir _ w1) as [[names|e] w2]; [|done].
  destruct (for_each _ names w2) as [[items|e] w3]; done.
Qed.

Lemma list_ignores_outer_slashes_witness :
  let w := (create_folder (make_folder "a/b") (booted ticking)).2 in
  same_listing (list_files "/a/" w).1 (list_files "a" w).1 ∧
  (list_files "/a/" w).2 = (list_files "a" w).2.
Proof. intros w. apply list_ignores_outer_slashes. evaluate. Defined.

(** ** Paths without ".." *)
Section staying_inside.
Implicit Types (fs : gmap (list text) node) (cur l : location) (segs : list text).






End staying_inside.
